(** * Resumable OSM batch crawler: a shallow embedding in Rocq

    This development embeds the parts of [runner_local.py] (the batch
    runner) and [osm_one_location.py] (the per-location fetch-and-classify
    script) that decide the cursor, dedup ledger, retry and classification
    behaviour, together with the configuration tables of [config_osm.py].

    Conventions of the model:
    - Python [str] is [string] (ASCII); [str.lower] is ASCII lower-casing.
    - A Python [dict] with string keys is an association list with
      distinct keys in insertion order ([pydict]); [d.get(k)] is the first
      binding of [k].
    - A Python [set] of strings is [gset string].
    - Decoded JSON is [jvalue]; [json.loads] itself is not re-implemented:
      a file line or a file body carries its decoding result
      ([None] when [json.loads] raises).
    - Wall-clock readings ([datetime.utcnow()] differences) are rationals
      [Q] of seconds, observed by the loop from its environment. *)

From Stdlib Require Import ZArith QArith String Ascii List Lia.
From stdpp Require Import base gmap strings list pretty.

#[local] Set Warnings "-register-all".

Import ListNotations.
Open Scope Z_scope.

(* ------------------------------------------------------------------ *)
(** ** Strings *)

Module Str.

(** [c.lower()] on an ASCII character. *)
Definition lower_char (c : ascii) : ascii :=
  let n := nat_of_ascii c in
  if (65 <=? n)%nat && (n <=? 90)%nat then ascii_of_nat (n + 32) else c.

(** [s.lower()] *)
Fixpoint lower (s : string) : string :=
  match s with
  | EmptyString => EmptyString
  | String c s' => String (lower_char c) (lower s')
  end.

(** [s.startswith(p)] *)
Fixpoint starts_with (p s : string) : bool :=
  match p, s with
  | EmptyString, _ => true
  | String c p', String d s' => Ascii.eqb c d && starts_with p' s'
  | String _ _, EmptyString => false
  end.

(** Python's [needle in hay] on strings. *)
Fixpoint contains (needle hay : string) : bool :=
  starts_with needle hay ||
  match hay with
  | EmptyString => false
  | String _ hay' => contains needle hay'
  end.

(** [sep.join(xs)] *)
Fixpoint join (sep : string) (xs : list string) : string :=
  match xs with
  | [] => EmptyString
  | [x] => x
  | x :: xs' => x +:+ sep +:+ join sep xs'
  end.

(** Whitespace recognised by [str.strip()] (ASCII part). *)
Definition is_ws (c : ascii) : bool :=
  let n := nat_of_ascii c in
  (n =? 32)%nat || ((9 <=? n)%nat && (n <=? 13)%nat).

Fixpoint lstrip (s : string) : string :=
  match s with
  | EmptyString => EmptyString
  | String c s' => if is_ws c then lstrip s' else s
  end.

Fixpoint rev_str (s acc : string) : string :=
  match s with
  | EmptyString => acc
  | String c s' => rev_str s' (String c acc)
  end.

(** [s.strip()] *)
Definition strip (s : string) : string :=
  rev_str (lstrip (rev_str (lstrip s) EmptyString)) EmptyString.

End Str.

Import Str.

(* ------------------------------------------------------------------ *)
(** ** Python dictionaries and decoded JSON *)

Definition pydict (V : Type) := list (string * V).

(** [d.get(k)] *)
Fixpoint dict_get {V} (d : pydict V) (k : string) : option V :=
  match d with
  | [] => None
  | (k', v) :: d' => if String.eqb k k' then Some v else dict_get d' k
  end.

(** [d.get(k, default)] *)
Definition dict_get_default {V} (d : pydict V) (k : string) (dflt : V) : V :=
  match dict_get d k with Some v => v | None => dflt end.

(** A value produced by [json.loads]: JSON integers, floats (finite ones as
    exact rationals; Python's [json] also reads [NaN] and [Infinity]),
    strings, arrays and objects. *)
Inductive jvalue : Type :=
| JNull
| JBool (b : bool)
| JInt (z : Z)
| JFloat (q : Q)
| JNonFinite
| JStr (s : string)
| JArr (xs : list jvalue)
| JObj (fields : pydict jvalue).

(** Python's [int(s)] on a string: surrounding whitespace, an optional sign,
    and decimal digits, single underscores allowed between digits. *)
Definition digit_val (c : ascii) : option Z :=
  let n := nat_of_ascii c in
  if (48 <=? n)%nat && (n <=? 57)%nat then Some (Z.of_nat n - 48) else None.

(** [prev_digit] records whether the previous character was a digit
    (an underscore must follow a digit and be followed by one). *)
Fixpoint parse_digits (s : string) (acc : Z) (prev_digit : bool) : option Z :=
  match s with
  | EmptyString => if prev_digit then Some acc else None
  | String c s' =>
      match digit_val c with
      | Some d => parse_digits s' (10 * acc + d) true
      | None =>
          if Ascii.eqb c "_"%char && prev_digit then
            match s' with
            | String c2 _ =>
                match digit_val c2 with
                | Some _ => parse_digits s' acc false
                | None => None
                end
            | EmptyString => None
            end
          else None
      end
  end.

Definition py_int_of_string (s : string) : option Z :=
  match strip s with
  | String c s' =>
      if Ascii.eqb c "-"%char then option_map Z.opp (parse_digits s' 0 false)
      else if Ascii.eqb c "+"%char then parse_digits s' 0 false
      else parse_digits (String c s') 0 false
  | EmptyString => None
  end.

(** [int(v)] on a decoded JSON value; [None] when Python raises
    ([TypeError] on [None], lists and dicts; [ValueError] and
    [OverflowError] on bad strings and non-finite floats). A float is
    truncated toward zero; [bool] is a subclass of [int]. *)
Definition py_int (v : jvalue) : option Z :=
  match v with
  | JNull => None
  | JBool b => Some (if b then 1 else 0)
  | JInt z => Some z
  | JFloat q => Some (Z.quot (Qnum q) (Zpos (Qden q)))
  | JNonFinite => None
  | JStr s => py_int_of_string s
  | JArr _ => None
  | JObj _ => None
  end.

(** Python truthiness ([if v:]) of a decoded JSON value. *)
Definition py_truthy (v : jvalue) : bool :=
  match v with
  | JNull => false
  | JBool b => b
  | JInt z => negb (z =? 0)
  | JFloat q => negb (Qeq_bool q 0)
  | JNonFinite => true
  | JStr s => negb (String.eqb s EmptyString)
  | JArr xs => negb (length xs =? 0)%nat
  | JObj fs => negb (length fs =? 0)%nat
  end.

(* ------------------------------------------------------------------ *)
(** ** Cursor store ([load_cursor], [save_cursor]) *)

Module Cursor.

(** The cursor file [cursor.json]: absent, or present with the result of
    [json.loads] on its text ([None] when decoding raises). *)
Inductive cursor_file : Type :=
| CursorMissing
| CursorPresent (decoded : option jvalue).

(** [load_cursor(total_count)]; every exception raised inside the [try]
    (decoding, [obj.get] on a non-dict, [int(...)]) yields 0. *)
Definition load_cursor (f : cursor_file) (total_count : Z) : Z :=
  match f with
  | CursorMissing => 0
  | CursorPresent None => 0
  | CursorPresent (Some (JObj obj)) =>
      match py_int (dict_get_default obj "index" (JInt 0)) with
      | None => 0
      | Some idx =>
          match py_int (dict_get_default obj "total" (JInt total_count)) with
          | None => 0
          | Some prev_total =>
              if negb (prev_total =? total_count) || (idx <? 0)
                 || (total_count <=? idx)
              then 0 else idx
          end
      end
  | CursorPresent (Some _) => 0
  end.

(** [save_cursor(index, total_count)]: writes
    [json.dumps({"index": index, "total": total_count})], which
    [json.loads] decodes back to the same object. *)
Definition save_cursor (index total_count : Z) : cursor_file :=
  CursorPresent (Some (JObj [("index", JInt index); ("total", JInt total_count)])).

(** The stored values the spec speaks of: [int()] of the stored fields,
    when the file decodes to an object whose fields convert. *)
Definition stored_index (f : cursor_file) : option Z :=
  match f with
  | CursorPresent (Some (JObj obj)) =>
      match dict_get obj "index" with Some v => py_int v | None => None end
  | _ => None
  end.

Definition stored_total (f : cursor_file) : option Z :=
  match f with
  | CursorPresent (Some (JObj obj)) =>
      match dict_get obj "total" with Some v => py_int v | None => None end
  | _ => None
  end.

(** The file is present but cannot be read as a cursor: it does not
    decode, is not an object, or a present field does not convert. *)
Definition unparsable (f : cursor_file) : bool :=
  match f with
  | CursorMissing => false
  | CursorPresent (Some (JObj obj)) =>
      match dict_get obj "index" with
      | Some v => match py_int v with None => true | Some _ => false end
      | None => false
      end
      || match dict_get obj "total" with
         | Some v => match py_int v with None => true | Some _ => false end
         | None => false
         end
  | CursorPresent _ => true
  end.

End Cursor.

(* ------------------------------------------------------------------ *)
(** ** Dedup ledger ([load_seen_ids], [append_seen_ids]) *)

Module Ledger.

(** One line of [state_dedupe.jsonl] as the reading loop sees it:
    blank after [line.strip()], or text together with the result of
    [json.loads] on it ([None] when decoding raises). *)
Inductive ledger_line : Type :=
| LBlank
| LText (decoded : option jvalue).

(** The ledger file: absent, present but failing to open or read
    ([path.open()] or the line iteration raises), its lines when the file
    is empty or ends with a newline, or its lines followed by a last line
    that has no newline (a file edited by hand, or a write cut short). *)
Inductive ledger_file : Type :=
| LedgerMissing
| LedgerUnreadable
| LedgerLines (lines : list ledger_line)
| LedgerUnterminated (lines : list ledger_line) (last : ledger_line).

Section Seen.

(** [str(pid)] for decoded floats, arrays and objects (Python's [repr]
    rendering), left as a parameter; the other cases are written out. *)
Variable py_str_other : jvalue -> string.

Definition py_str (v : jvalue) : string :=
  match v with
  | JStr s => s
  | JInt z => pretty z
  | JBool true => "True"
  | JBool false => "False"
  | JNull => "None"
  | _ => py_str_other v
  end.

(** The body of the [for line in f] loop: [obj.get] on a non-dict raises
    [AttributeError], which the [except Exception: pass] swallows, as it
    does a decoding error. *)
Definition seen_step (seen : gset string) (l : ledger_line) : gset string :=
  match l with
  | LBlank => seen
  | LText None => seen
  | LText (Some (JObj obj)) =>
      match dict_get obj "place_id" with
      | Some pid => if py_truthy pid then {[ py_str pid ]} ∪ seen else seen
      | None => seen
      end
  | LText (Some _) => seen
  end.

(** [load_seen_ids(path)]; [None] when Python raises out of it. *)
Definition load_seen_ids (f : ledger_file) : option (gset string) :=
  match f with
  | LedgerMissing => Some ∅
  | LedgerUnreadable => None
  | LedgerLines ls => Some (fold_left seen_step ls ∅)
  | LedgerUnterminated ls last => Some (fold_left seen_step (ls ++ [last]) ∅)
  end.

End Seen.

(** The line [json.dumps({"place_id": pid})] as read back. *)
Definition ledger_entry (pid : string) : ledger_line :=
  LText (Some (JObj [("place_id", JStr pid)])).

(** The line read back when mode ["a"] writes the text of [first] right
    after a last line [last] that has no newline. A blank [last] is only
    whitespace, which [line.strip()] removes, so the line reads as [first].
    A non-blank [last] is followed on the same line by the complete JSON
    object [first]; [json.loads] then raises: after a complete value it
    finds "Extra data", and text that is not a complete value is not
    completed by a closed object after it. *)
Definition join_lines (last first : ledger_line) : ledger_line :=
  match last with
  | LBlank => first
  | LText _ => LText None
  end.

(** [append_seen_ids(path, place_ids)]: nothing for an empty set, else one
    line per id in the set's iteration order, each ended by a newline; mode
    ["a"] creates a missing file, and writes the first line at the end of
    a last line that has no newline. *)
Definition append_seen_ids (f : ledger_file) (place_ids : gset string) : ledger_file :=
  if decide (place_ids = ∅) then f
  else
    let new := map ledger_entry (elements place_ids) in
    match f with
    | LedgerMissing => LedgerLines new
    | LedgerUnreadable => LedgerUnreadable
    | LedgerLines ls => LedgerLines (ls ++ new)
    | LedgerUnterminated ls last =>
        match new with
        | [] => LedgerUnterminated ls last
        | first :: rest => LedgerLines (ls ++ join_lines last first :: rest)
        end
    end.

End Ledger.

(* ------------------------------------------------------------------ *)
(** ** Configuration tables ([config_osm.py]) *)

Module Config.

Definition RETAIL_OSM_TAGS : list (string * string) :=
  [("shop", "supermarket"); ("shop", "grocery"); ("shop", "convenience");
   ("shop", "greengrocer");
   ("shop", "organic"); ("shop", "dairy"); ("shop", "cheese");
   ("shop", "chocolate"); ("shop", "confectionery"); ("shop", "butcher");
   ("shop", "florist");
   ("shop", "cosmetics"); ("shop", "perfumery"); ("shop", "beauty");
   ("shop", "chemist"); ("shop", "health_food");
   ("shop", "department_store"); ("shop", "general"); ("shop", "variety_store");
   ("shop", "alcohol"); ("shop", "beverages"); ("shop", "wine");
   ("shop", "beer"); ("shop", "tobacco")].

Definition WHOLESALE_OSM_TAGS : list (string * string) :=
  [("shop", "wholesale");
   ("wholesale", "food"); ("wholesale", "groceries"); ("wholesale", "beverages");
   ("wholesale", "alcohol"); ("wholesale", "wine"); ("wholesale", "beer");
   ("wholesale", "fruit"); ("wholesale", "vegetables"); ("wholesale", "meat");
   ("wholesale", "seafood"); ("wholesale", "dairy");
   ("wholesale", "cosmetics"); ("wholesale", "health_products");
   ("wholesale", "chemicals")].

(** [OSM_TO_NAICS_RETAIL], a dict keyed by (key, value) pairs. *)
Definition OSM_TO_NAICS_RETAIL : list ((string * string) * string) :=
  [(("shop", "supermarket"), "445110"); (("shop", "grocery"), "445110");
   (("shop", "convenience"), "445120");
   (("shop", "greengrocer"), "445230");
   (("shop", "organic"), "445110"); (("shop", "dairy"), "445299");
   (("shop", "cheese"), "445299"); (("shop", "chocolate"), "445292");
   (("shop", "confectionery"), "445292"); (("shop", "butcher"), "445210");
   (("shop", "florist"), "453110");
   (("shop", "cosmetics"), "446120"); (("shop", "perfumery"), "446120");
   (("shop", "beauty"), "446120"); (("shop", "chemist"), "446110");
   (("shop", "health_food"), "446191");
   (("shop", "department_store"), "452210"); (("shop", "general"), "452319");
   (("shop", "variety_store"), "452319");
   (("shop", "alcohol"), "445310"); (("shop", "beverages"), "445310");
   (("shop", "wine"), "445310"); (("shop", "beer"), "445310");
   (("shop", "tobacco"), "453991")].

Definition WHOLESALE_KEYWORD_TO_NAICS : list (string * string) :=
  [("frozen", "424420"); ("dairy", "424430"); ("seafood", "424460");
   ("fish", "424460"); ("meat", "424470"); ("poultry", "424470");
   ("fruit", "424480"); ("vegetable", "424480"); ("produce", "424480");
   ("grocery", "424410"); ("general line", "424410"); ("food service", "424410");
   ("beverage", "424490"); ("alcohol", "424820"); ("wine", "424820");
   ("beer", "424810"); ("cosmetic", "424210"); ("health", "424210");
   ("chemical", "424690")].

Definition DEFAULT_WHOLESALE_NAICS : string := "424490".

End Config.

(* ------------------------------------------------------------------ *)
(** ** The one-location script ([osm_one_location.py]) *)

Module Osm.
Import Config.

(** An Overpass element: [type] and [id] when present, its [tags] ([None]
    for a missing or null [tags]), its own [lat]/[lon], and its [center]
    object (with the [lat]/[lon] it carries). *)
Record element := {
  el_type : option string;
  el_id : option Z;
  el_tags : option (pydict string);
  el_lat : option Q;
  el_lon : option Q;
  el_center : option (option Q * option Q)
}.

(** A row of the DataFrame built by [parse_elements]; the columns that are
    the constant [""] ("Search Keyword", "Rating", "User Ratings") are
    left out. *)
Record row := {
  r_location : string;
  r_segment : string;
  r_naics : string;
  r_name : string;
  r_address : string;
  r_phone : string;
  r_website : string;
  r_lat : option Q;
  r_lon : option Q;
  r_place_id : string;
  r_types : string
}.

(** [x or y] on optional strings, where [None] and [""] are falsy. *)
Definition or_str (a : option string) (b : option string) : option string :=
  match a with
  | Some s => if String.eqb s "" then b else Some s
  | None => b
  end.

Definition extract_center (el : element) : option Q * option Q :=
  match el_lat el, el_lon el with
  | Some la, Some lo => (Some la, Some lo)
  | _, _ =>
      match el_center el with
      | Some (Some la, Some lo) => (Some la, Some lo)
      | _ => (None, None)
      end
  end.

Definition el_tags_or_empty (el : element) : pydict string :=
  match el_tags el with Some t => t | None => [] end.

Definition extract_address (el : element) : string :=
  let tags := el_tags_or_empty el in
  match dict_get tags "addr:full" with
  | Some full => full
  | None =>
      let hn := or_str (dict_get tags "addr:housenumber") None in
      let st := or_str (dict_get tags "addr:street") None in
      let city := or_str (dict_get tags "addr:city")
                    (or_str (dict_get tags "addr:town") (dict_get tags "addr:village")) in
      let state := or_str (dict_get tags "addr:state") None in
      let postcode := or_str (dict_get tags "addr:postcode") None in
      let p1 := match hn, st with
                | Some h, Some s => [h +:+ " " +:+ s]
                | None, Some s => [s]
                | _, None => []
                end in
      let opt o := match o with Some s => [s] | None => [] end in
      join ", " (p1 ++ opt city ++ opt state ++ opt postcode)
  end.

Definition extract_phone (tags : pydict string) : string :=
  match or_str (dict_get tags "contact:phone") (dict_get tags "phone") with
  | Some s => s | None => "" end.

Definition extract_website (tags : pydict string) : string :=
  match or_str (dict_get tags "contact:website") (dict_get tags "website") with
  | Some s => s | None => "" end.

Definition build_type_string (tags : pydict string) : string :=
  join ", "
    (flat_map (fun key => match dict_get tags key with
                          | Some v => [key +:+ "=" +:+ v] | None => [] end)
       ["shop"; "amenity"; "wholesale"; "industry"; "product"; "brand"; "operator"]).

(** [f'{kk}={vv}'] for one tag. *)
Definition fmt_tag (kv : string * string) : string := kv.1 +:+ "=" +:+ kv.2.

(** The lower-cased text searched for keywords in [infer_segment_and_naics]. *)
Definition blob_of (name : string) (tags : pydict string) : string :=
  lower (name +:+ " " +:+ join " " (map fmt_tag tags)).

(** [infer_wholesale_naics(blob)] *)
Fixpoint first_keyword (table : list (string * string)) (blob : string) : option string :=
  match table with
  | [] => None
  | (key, code) :: t => if contains key blob then Some code else first_keyword t blob
  end.

Definition infer_wholesale_naics (blob : string) : string :=
  match first_keyword WHOLESALE_KEYWORD_TO_NAICS blob with
  | Some code => code
  | None => DEFAULT_WHOLESALE_NAICS
  end.

Definition pair_eqb (a b : string * string) : bool :=
  String.eqb a.1 b.1 && String.eqb a.2 b.2.

(** [OSM_TO_NAICS_RETAIL.get((k, v), "")] *)
Fixpoint table_get (table : list ((string * string) * string)) (kv : string * string)
  : option string :=
  match table with
  | [] => None
  | (kv', code) :: t => if pair_eqb kv kv' then Some code else table_get t kv
  end.

Definition infer_segment_and_naics (name : string) (tags : pydict string)
    (kv_pair : string * string) : string * string :=
  let '(k, v) := kv_pair in
  let blob := blob_of name tags in
  if String.eqb k "shop" && String.eqb v "wholesale" then
    ("wholesale", infer_wholesale_naics blob)
  else if contains "wholesale" blob || contains "distributor" blob
          || contains "merchant wholesaler" blob then
    ("wholesale", infer_wholesale_naics blob)
  else ("retail", match table_get OSM_TO_NAICS_RETAIL (k, v) with
                  | Some c => c | None => "" end).

(** [tags.get(k) == v] *)
Definition tag_is (tags : pydict string) (kv : string * string) : bool :=
  match dict_get tags kv.1 with Some v' => String.eqb v' kv.2 | None => false end.

(** The [for k, v in ...: if tags.get(k) == v: return (k, v)] loop. *)
Fixpoint find_kv (tags : pydict string) (l : list (string * string))
  : option (string * string) :=
  match l with
  | [] => None
  | kv :: l' => if tag_is tags kv then Some kv else find_kv tags l'
  end.

Definition detect_matched_kv (tags : pydict string) : option (string * string) :=
  match find_kv tags (WHOLESALE_OSM_TAGS ++ RETAIL_OSM_TAGS) with
  | Some kv => Some kv
  | None =>
      match dict_get tags "shop" with
      | Some s => if String.eqb s "wholesale" then Some ("shop", "wholesale") else None
      | None => None
      end
  end.

(** Lines 199-201 of [parse_elements]: the (segment, NAICS) of a candidate
    with tags [tags] found by the pass [hint_segment]. *)
Definition classify (tags : pydict string) (hint_segment : string) : string * string :=
  let name := dict_get_default tags "name" "" in
  match detect_matched_kv tags with
  | Some kv => infer_segment_and_naics name tags kv
  | None => (hint_segment, "")
  end.

(** Exceptions that escape the script and make it exit with a non-zero
    status: [requests.HTTPError] from [raise_for_status()],
    [requests.Timeout], a JSON decoding error from [r.json()], and the
    [IndexError] of [element_uid] on an empty [type]. *)
Inductive exn : Type :=
| HTTPError
| RequestTimeout
| JSONDecodeError
| IndexError.

(** The script's effects: exceptions, and the number of requests sent to
    the external provider so far (so that a provider stub can answer each
    attempt differently, and attempts can be counted). *)
Definition M (A : Type) : Type := nat -> (exn + A) * nat.

#[global] Instance M_ret : MRet M := fun A a n => (inr a, n).
#[global] Instance M_bind : MBind M := fun A B k m n =>
  match m n with
  | (inl e, n') => (inl e, n')
  | (inr a, n') => k a n'
  end.

Definition raise {A} (e : exn) : M A := fun n => (inl e, n).

(** A provider response to one HTTP request: a 2xx with its decoded body,
    an error status (4xx/5xx, e.g. 429 or 503, possibly with a
    [Retry-After] value), a network timeout, or a body that is not JSON. *)
Inductive response (A : Type) : Type :=
| RespOk (body : A)
| RespStatus (code : Z) (retry_after : option Z)
| RespTimeout
| RespMalformed.
Arguments RespOk {A}.
Arguments RespStatus {A}.
Arguments RespTimeout {A}.
Arguments RespMalformed {A}.

(** The response is a success. *)
Definition is_ok {A} (r : response A) : bool :=
  match r with RespOk _ => true | _ => false end.

(** The external services, answering the n-th request of the run.
    Nominatim returns its result list (each result's [lat]/[lon] as
    numbers); Overpass returns the [elements] field of its JSON
    ([None] when absent). *)
Record provider := {
  nominatim : nat -> string -> response (list (Q * Q));
  overpass : nat -> Q -> Q -> Z -> list (string * string) -> response (option (list element))
}.

(** One boundary call: [requests.get/post(...)], [r.raise_for_status()],
    [r.json()]; there is no retry loop around it. *)
Definition request {A} (resp : nat -> response A) : M A := fun n =>
  match resp n with
  | RespOk a => (inr a, S n)
  | RespStatus _ _ => (inl HTTPError, S n)
  | RespTimeout => (inl RequestTimeout, S n)
  | RespMalformed => (inl JSONDecodeError, S n)
  end.

(** [geocode_nominatim(q)] (the [time.sleep(1.1)] is not modelled). *)
Definition geocode_nominatim (P : provider) (q : string) : M (option (Q * Q)) :=
  data ← request (fun n => nominatim P n q);
  match data with
  | [] => mret None
  | (lat, lon) :: _ => mret (Some (lat, lon))
  end.

(** [overpass_query(lat, lon, radius_m, tags)] *)
Definition overpass_query (P : provider) (lat lon : Q) (radius_m : Z)
    (tags : list (string * string)) : M (list element) :=
  data ← request (fun n => overpass P n lat lon radius_m tags);
  mret (match data with Some els => els | None => [] end).

(** [miles_to_meters(mi)] = [int(mi * 1609.344)] *)
Definition miles_to_meters (mi : Q) : Z :=
  let q := Qmult mi (1609344 # 1000) in Z.quot (Qnum q) (Zpos (Qden q)).

(** [element_uid(el)]: [None] when [el.get("type", "?")[0]] raises. *)
Definition element_uid (el : element) : option string :=
  let t := match el_type el with Some t => t | None => "?" end in
  let i := match el_id el with Some z => pretty z | None => "None" end in
  match t with
  | String c _ => Some (String c EmptyString +:+ "_" +:+ i)
  | EmptyString => None
  end.

Definition make_row (el : element) (uid location hint_segment : string) : row :=
  let tags := el_tags_or_empty el in
  let '(lat, lon) := extract_center el in
  let '(segment, naics) := classify tags hint_segment in
  {| r_location := location; r_segment := segment; r_naics := naics;
     r_name := dict_get_default tags "name" "";
     r_address := extract_address el; r_phone := extract_phone tags;
     r_website := extract_website tags; r_lat := lat; r_lon := lon;
     r_place_id := uid; r_types := build_type_string tags |}.

(** [parse_elements(elements, location, hint_segment, seen_ids)]; the
    shared mutable [seen_ids] set is threaded through and returned. *)
Fixpoint parse_elements (els : list element) (location hint_segment : string)
    (seen_ids : gset string) : M (list row * gset string) :=
  match els with
  | [] => mret ([], seen_ids)
  | el :: els' =>
      match element_uid el with
      | None => raise IndexError
      | Some uid =>
          if decide (uid ∈ seen_ids) then parse_elements els' location hint_segment seen_ids
          else
            '(rows, seen') ← parse_elements els' location hint_segment ({[uid]} ∪ seen_ids);
            mret (make_row el uid location hint_segment :: rows, seen')
      end
  end.

(** [run_one_location_osm(location, radius_miles)]; [if not lat] also
    rejects a latitude of 0. *)
Definition run_one_location_osm (P : provider) (location : string) (radius_miles : Q)
  : M (list row) :=
  let radius_m := miles_to_meters radius_miles in
  g ← geocode_nominatim P location;
  match g with
  | None => mret []
  | Some (lat, lon) =>
      if Qeq_bool lat 0 then mret []
      else
        retail_elements ← overpass_query P lat lon radius_m RETAIL_OSM_TAGS;
        '(rows1, seen1) ← parse_elements retail_elements location "retail" ∅;
        wholesale_elements ← overpass_query P lat lon radius_m WHOLESALE_OSM_TAGS;
        '(rows2, _) ← parse_elements wholesale_elements location "wholesale" seen1;
        mret (rows1 ++ rows2)
  end.

(** The script's [main()]: no file for an empty result, else the Suppliers
    CSV (wholesale rows) and the Retailers CSV (retail rows). *)
Definition script_main (P : provider) (location : string) (radius_miles : Q)
  : M (list (list row)) :=
  df ← run_one_location_osm P location radius_miles;
  match df with
  | [] => mret []
  | _ => mret [List.filter (fun r => String.eqb (r_segment r) "wholesale") df;
               List.filter (fun r => String.eqb (r_segment r) "retail") df]
  end.

End Osm.

(* ------------------------------------------------------------------ *)
(** ** The batch runner ([runner_local.py]) *)

Module Runner.
Import Cursor Ledger Osm.

(** What the runner prints that the claims speak of. *)
Inductive log_entry : Type :=
| LogRunFailed (location : string)
| LogNoCSVs.

(** [run_one(location, radius)], given how the script run ended: a failed
    run (non-zero exit status) gives no ids; otherwise the CSVs the script
    created are moved to [outputs/] and their "Place ID" columns are
    read back. The result is (new ids, rows moved to the output sink, log).
    The CSVs found by the glob are the ones this script run wrote. *)
Definition run_one (location : string) (result : exn + list (list row))
  : gset string * list row * list log_entry :=
  match result with
  | inl _ => (∅, [], [LogRunFailed location])
  | inr created =>
      let moved := concat created in
      (list_to_set (map r_place_id moved), moved,
       match created with [] => [LogNoCSVs] | _ => [] end)
  end.

(** The runner's state across loop iterations, with the files it owns.
    [s_emitted] lists every row moved into [outputs/], in order;
    [s_visited] lists the indices of the locations processed. *)
Record sched := {
  s_idx : Z;
  s_processed : Z;
  s_new_ids_total : Z;
  s_seen : gset string;
  s_ledger : ledger_file;
  s_cursor : cursor_file;
  s_emitted : list row;
  s_log : list log_entry;
  s_visited : list Z
}.

(** One iteration of the [while True] loop after the stop checks
    (lines 240-254), for the location at [s_idx]. *)
Definition sched_step (total : Z) (location : string) (st : sched)
    (result : exn + list (list row)) : sched :=
  let '(new_ids, moved, lg) := run_one location result in
  let new_unique := new_ids ∖ s_seen st in
  let idx' := (s_idx st + 1) mod total in
  {| s_idx := idx';
     s_processed := s_processed st + 1;
     s_new_ids_total := s_new_ids_total st + Z.of_nat (size new_unique);
     s_seen := s_seen st ∪ new_ids;
     s_ledger := append_seen_ids (s_ledger st) new_unique;
     s_cursor := save_cursor idx' total;
     s_emitted := s_emitted st ++ moved;
     s_log := s_log st ++ lg;
     s_visited := s_visited st ++ [s_idx st] |}.

(** The tunables read from the environment. *)
Record config := {
  MAX_JOB_SECONDS : Z;
  BATCH_SIZE : Z
}.

(** The stop checks at the top of the loop (lines 229-238). *)
Definition should_stop (cfg : config) (elapsed : Q) (processed : Z) : bool :=
  (if negb (MAX_JOB_SECONDS cfg =? 0)
   then Qle_bool (inject_Z (MAX_JOB_SECONDS cfg)) elapsed else false)
  || ((MAX_JOB_SECONDS cfg =? 0) && (BATCH_SIZE cfg <=? processed)).

(** What the environment supplies to one iteration: the elapsed seconds
    read by the stop check, and the provider the script then talks to. *)
Record tick := {
  t_elapsed : Q;
  t_provider : provider
}.

(** The [while True] loop, one tick per iteration; the loop ends at a stop
    condition (or when the environment supplies no further iteration). *)
Fixpoint sched_loop (cfg : config) (locations : list (string * Q)) (st : sched)
    (ticks : list tick) : sched :=
  match ticks with
  | [] => st
  | t :: ts =>
      if should_stop cfg (t_elapsed t) (s_processed st) then st
      else
        match locations !! Z.to_nat (s_idx st) with
        | Some (loc, radius) =>
            let result := fst (script_main (t_provider t) loc radius 0%nat) in
            sched_loop cfg locations
              (sched_step (Z.of_nat (length locations)) loc st result) ts
        | None => st
        end
  end.

(** The files the runner reads at start-up. *)
Record files := {
  f_cursor : cursor_file;
  f_ledger : ledger_file
}.

(** Start-up of [main()] after the locations are loaded: [load_cursor],
    then [load_seen_ids]; [None] when the latter raises. Nothing is written. *)
Definition startup (py_str_other : jvalue -> string) (fs : files) (total : Z)
  : option (Z * gset string) :=
  let start_idx := load_cursor (f_cursor fs) total in
  match load_seen_ids py_str_other (f_ledger fs) with
  | None => None
  | Some seen => Some (start_idx, seen)
  end.

Inductive main_result : Type :=
| MainNoWork
| MainCrashed
| MainDone (st : sched).

(** [main()] up to the final summary (git checkpoints, ETA and summary
    output are not modelled). *)
Definition main (py_str_other : jvalue -> string) (cfg : config)
    (locations : list (string * Q)) (fs : files) (ticks : list tick) : main_result :=
  let total := Z.of_nat (length locations) in
  if total =? 0 then MainNoWork
  else
    match startup py_str_other fs total with
    | None => MainCrashed
    | Some (start_idx, seen) =>
        MainDone (sched_loop cfg locations
          {| s_idx := start_idx; s_processed := 0; s_new_ids_total := 0;
             s_seen := seen; s_ledger := f_ledger fs; s_cursor := f_cursor fs;
             s_emitted := []; s_log := []; s_visited := [] |} ticks)
    end.

End Runner.

(* ------------------------------------------------------------------ *)
(** ** The classification precedence in the words of the spec *)

Module SpecClassify.
Import Config Osm.

(** (a) an explicit wholesale tag, or a wholesale keyword in the name or
    attribute text. *)
Definition wholesale_signal (tags : pydict string) : bool :=
  let blob := blob_of (dict_get_default tags "name" "") tags in
  existsb (tag_is tags) WHOLESALE_OSM_TAGS
  || contains "wholesale" blob || contains "distributor" blob
  || contains "merchant wholesaler" blob.

(** (b) a structured category tag present in the retail mapping table. *)
Fixpoint retail_table_code (tags : pydict string)
    (table : list ((string * string) * string)) : option string :=
  match table with
  | [] => None
  | (kv, code) :: t => if tag_is tags kv then Some code else retail_table_code tags t
  end.

Definition spec_classify (tags : pydict string) (hint_segment : string) : string * string :=
  let blob := blob_of (dict_get_default tags "name" "") tags in
  if wholesale_signal tags then ("wholesale", infer_wholesale_naics blob)
  else match retail_table_code tags OSM_TO_NAICS_RETAIL with
       | Some code => ("retail", code)
       | None => (hint_segment, "")
       end.


End SpecClassify.

(* ------------------------------------------------------------------ *)
(** ** The Google Places one-location script ([places_one_location.py]) *)

Module Places.

(** [RETAIL_KEYWORDS] and [WHOLESALE_KEYWORDS] of [config.py]: the search
    keywords of the retail and of the wholesale pass. *)
Definition RETAIL_KEYWORDS : list string :=
  ["ethnic store"; "grocery store"; "indian grocery"; "retail food";
   "clothing store"; "convenience store"].











End Places.

(* ------------------------------------------------------------------ *)
(** ** Consecutive iterations *)

Module Steps.
Import Osm Runner.

(** Iterations of the loop body, each for the location at the current
    index, with the location name and script outcome of that iteration. *)
Fixpoint sched_steps (total : Z) (st : sched)
    (outs : list (string * (exn + list (list row)))) : sched :=
  match outs with
  | [] => st
  | (loc, res) :: outs' => sched_steps total (sched_step total loc st res) outs'
  end.

End Steps.

(* ------------------------------------------------------------------ *)
(** ** Provider stubs and sample states *)

Module Stubs.
Import Config Ledger Osm Runner.

(** A provider that answers every request with HTTP 429 and a
    [Retry-After] of one second. *)
Definition always_throttled : provider := {|
  nominatim := fun _ _ => RespStatus 429 (Some 1);
  overpass := fun _ _ _ _ _ => RespStatus 429 (Some 1)
|}.

(** A supermarket node that also carries a [wholesale=food] tag, so that
    both search passes return it. *)
Definition market_node : element := {|
  el_type := Some "node"; el_id := Some 1;
  el_tags := Some [("shop", "supermarket"); ("wholesale", "food"); ("name", "Hannaford")];
  el_lat := Some (43 # 1); el_lon := Some ((-71) # 1); el_center := None
|}.

(** Geocoding succeeds; both searches return [market_node]. *)
Definition overlapping_provider : provider := {|
  nominatim := fun _ _ => RespOk [((43 # 1), ((-71) # 1))];
  overpass := fun _ _ _ _ _ => RespOk (Some [market_node])
|}.

Definition cfg_default : config := {| MAX_JOB_SECONDS := 16200; BATCH_SIZE := 1000000 |}.

Definition st_empty : sched := {|
  s_idx := 0; s_processed := 0; s_new_ids_total := 0; s_seen := ∅;
  s_ledger := LedgerMissing; s_cursor := Cursor.CursorMissing;
  s_emitted := []; s_log := []; s_visited := [] |}.

Definition st_at1 : sched := {|
  s_idx := 1; s_processed := 0; s_new_ids_total := 0; s_seen := ∅;
  s_ledger := LedgerMissing; s_cursor := Cursor.CursorMissing;
  s_emitted := []; s_log := []; s_visited := [] |}.

Definition three_outcomes : list (string * (exn + list (list row))) :=
  [("Concord, NH", inl HTTPError); ("Keene, NH", inr []);
   ("Nashua, NH", inl RequestTimeout)].

End Stubs.

(* ------------------------------------------------------------------ *)
(** ** More of Python's [str] methods *)

Module PyText.

(** [c.isspace()] on an ASCII character: the C0 whitespace controls,
    the separators [\x1c]-[\x1f], and the space. *)
Definition py_isspace (c : ascii) : bool :=
  let n := nat_of_ascii c in
  ((9 <=? n)%nat && (n <=? 13)%nat) || ((28 <=? n)%nat && (n <=? 32)%nat).

Fixpoint lstrip_ws (s : string) : string :=
  match s with
  | EmptyString => EmptyString
  | String c s' => if py_isspace c then lstrip_ws s' else s
  end.

(** [s.strip()] *)
Definition py_strip (s : string) : string :=
  rev_str (lstrip_ws (rev_str (lstrip_ws s) EmptyString)) EmptyString.






(** [c.upper()] and [s.upper()] on ASCII. *)
Definition upper_char (c : ascii) : ascii :=
  let n := nat_of_ascii c in
  if (97 <=? n)%nat && (n <=? 122)%nat then ascii_of_nat (n - 32) else c.

Fixpoint upper (s : string) : string :=
  match s with
  | EmptyString => EmptyString
  | String c s' => String (upper_char c) (upper s')
  end.

(** [s[:n]] *)
Definition take_prefix (n : nat) (s : string) : string := substring 0 n s.

End PyText.

(* ------------------------------------------------------------------ *)
(** ** Output file names ([parse_city_state_abbr]) *)

Module CityState.
Import PyText.


End CityState.

(* ------------------------------------------------------------------ *)
(** ** The location list ([load_locations]) *)

Module Locations.
Import PyText.

(** A value of Python's [float]: finite, or [inf]/[nan]. *)
Inductive pyfloat : Type :=
| PFinite (q : Q)
| PNonFinite.

(** What [csv.reader] yields for [locations.csv], and the sniffer's
    verdict on whether its first record is a header (the sniffing
    heuristics themselves are not modelled). *)
Record csv_input := {
  has_header : bool;
  records : list (list string)
}.

Section Load.

(** [float(s)] on a cell; [None] when it raises [ValueError]. *)
Variable py_float : string -> option pyfloat.

(** [norm(h)] *)
Definition norm (h : option (list string)) : list string :=
  match h with
  | Some ((_ :: _) as cols) => map (fun c => lower (py_strip c)) cols
  | _ => []
  end.

(** The dict [m] built from a header [h] and a record [cols]: a later
    column with the same name overwrites the value of an earlier one, so
    the bindings are listed last column first. *)
Definition header_map (h cols : list string) : pydict string :=
  rev (imap (fun i k => (k, match cols !! i with
                              | Some c => py_strip c
                              | None => ""
                              end)) h).

Definition has_key (m : pydict string) (k : string) : bool :=
  match dict_get m k with Some _ => true | None => false end.

(** The body of [for cols in reader] up to [if loc:]: the (location,
    radius) read from a record, or [None] for [continue]. *)
Definition parse_record (h cols : list string) : option (string * pyfloat) :=
  match cols with
  | [] => None
  | _ =>
      if negb (length h =? 0)%nat then
        let m := header_map h cols in
        if has_key m "location" && has_key m "radius_miles" then
          match py_float (dict_get_default m "radius_miles" "") with
          | Some radius => Some (dict_get_default m "location" "", radius)
          | None => None
          end
        else if has_key m "state" && has_key m "city" && has_key m "radius_miles" then
          let st := upper (take_prefix 2 (dict_get_default m "state" "")) in
          let city := dict_get_default m "city" "" in
          match py_float (dict_get_default m "radius_miles" "") with
          | Some radius => Some (city +:+ ", " +:+ st, radius)
          | None => None
          end
        else None
      else
        let radius_str := py_strip (List.last cols "") in
        let loc := py_strip (join "," (map py_strip (removelast cols))) in
        match py_float radius_str with
        | Some radius => Some (loc, radius)
        | None => None
        end
  end.

(** One iteration of [for cols in reader]: the (location, radius) it
    appends, if any. *)
Definition location_of_record (h cols : list string) : option (string * pyfloat) :=
  match parse_record h cols with
  | Some (loc, radius) => if String.eqb loc "" then None else Some (loc, radius)
  | None => None
  end.

(** [load_locations()]; [None] when [next(reader)] raises
    [StopIteration] on a file with a header and no records. *)
Definition load_locations (inp : csv_input) : option (list (string * pyfloat)) :=
  let split_header :=
    if has_header inp then
      match records inp with
      | [] => None
      | hd :: rest => Some (Some hd, rest)
      end
    else Some (None, records inp) in
  match split_header with
  | None => None
  | Some (header, rows) =>
      let h := norm header in
      Some (omap (location_of_record h) rows)
  end.

End Load.

End Locations.

(* ------------------------------------------------------------------ *)
(** ** Checkpoint commits *)

Module Checkpoint.

(** The test [(processed % CKPT_EVERY_N == 0) or (since_last >=
    CKPT_EVERY_SEC)] of the loop; [None] when [%] raises
    [ZeroDivisionError]. Python's [%] takes the sign of the divisor, as
    [Z.modulo] does. *)
Definition checkpoint_due (ckpt_every_n ckpt_every_sec processed : Z) (since_last : Q)
  : option bool :=
  if ckpt_every_n =? 0 then None
  else Some ((processed mod ckpt_every_n =? 0)
             || Qle_bool (inject_Z ckpt_every_sec) since_last).

End Checkpoint.

(* ------------------------------------------------------------------ *)
(** ** The ledger file as a list of lines *)

Module LedgerView.
Import Ledger.

(** The lines of the ledger file; a missing file has none. *)
Definition ledger_lines_of (f : ledger_file) : option (list ledger_line) :=
  match f with
  | LedgerMissing => Some []
  | LedgerUnreadable => None
  | LedgerLines ls => Some ls
  | LedgerUnterminated ls last => Some (ls ++ [last])
  end.

(** Whether the file is not one whose last line lacks a newline. *)
Definition ledger_terminated (f : ledger_file) : bool :=
  match f with
  | LedgerUnterminated _ _ => false
  | _ => true
  end.

End LedgerView.

(* ------------------------------------------------------------------ *)
(** ** The invariant of [main]'s loop *)

Module RunInvariant.
Import Cursor Ledger Runner LedgerView.

(** What the loop keeps true from the state it starts in; the ledger
    part holds when the ledger file at start-up does not end in a line
    without a newline ([term0]). *)
Definition loop_inv (py_str_other : jvalue -> string) (cfg : config) (total : Z)
    (term0 : bool) (seen0 : gset string) (ls0 : list ledger_line) (st : sched) : Prop :=
  0 <= s_idx st < total
  /\ seen0 ⊆ s_seen st
  /\ Z.of_nat (size (s_seen st)) = Z.of_nat (size seen0) + s_new_ids_total st
  /\ load_cursor (s_cursor st) total = s_idx st
  /\ Z.of_nat (length (s_visited st)) = s_processed st
  /\ Forall (fun i => 0 <= i < total) (s_visited st)
  /\ (MAX_JOB_SECONDS cfg = 0 -> s_processed st <= Z.max 0 (BATCH_SIZE cfg))
  /\ (term0 = true ->
        ledger_terminated (s_ledger st) = true
        /\ load_seen_ids py_str_other (s_ledger st) = Some (s_seen st)
        /\ exists appended,
             ledger_lines_of (s_ledger st) = Some (ls0 ++ map ledger_entry appended)
             /\ NoDup appended /\ Forall (fun x => (x ∉ seen0) /\ x ∈ s_seen st) appended).

End RunInvariant.

(* ------------------------------------------------------------------ *)
(** ** A sample run of the batch runner *)

Module Demo.
Import Cursor Ledger Osm Runner Stubs.

(** Count budget of one location, no time budget. *)
Definition cfg_count : config := {| MAX_JOB_SECONDS := 0; BATCH_SIZE := 1 |}.

Definition demo_locations : list (string * Q) :=
  [("Northwood, NH", 10 # 1); ("Concord, NH", 5 # 1)].

(** A cursor saved at index 1 of 2, and a ledger holding one id. *)
Definition demo_files : files := {|
  f_cursor := save_cursor 1 2;
  f_ledger := LedgerLines [ledger_entry "w_7"]
|}.

Definition demo_ticks : list tick :=
  [{| t_elapsed := 0; t_provider := overlapping_provider |};
   {| t_elapsed := 3 # 1; t_provider := overlapping_provider |}].

(** A provider whose geocoder places every query at latitude 0. *)
Definition equator_provider : provider := {|
  nominatim := fun _ _ => RespOk [(0 # 1, 9 # 1)];
  overpass := fun _ _ _ _ _ => RespOk (Some [market_node])
|}.

(** A way whose [type] field is the empty string. *)
Definition untyped_way : element := {|
  el_type := Some ""; el_id := Some 5; el_tags := Some [("shop", "grocery")];
  el_lat := None; el_lon := None; el_center := Some (Some (43 # 1), Some ((-71) # 1))
|}.


Definition demo_run : main_result :=
  main (fun _ => "") cfg_count demo_locations demo_files demo_ticks.

Definition demo_final : sched :=
  match demo_run with MainDone st => st | _ => st_empty end.

End Demo.

(* ================================================================== *)
(** * Properties *)

Module Examples.
Import Config Osm SpecClassify.

Example classify_supermarket :
  classify [("shop", "supermarket"); ("name", "Hannaford")] "retail" = ("retail", "445110").
Proof. reflexivity. Qed.

Example classify_wholesale_name :
  classify [("shop", "supermarket"); ("name", "Grocery Wholesale Distributors")] "retail"
  = ("wholesale", "424410").
Proof. reflexivity. Qed.

Example spec_classify_wholesale_name :
  spec_classify [("shop", "supermarket"); ("name", "Grocery Wholesale Distributors")] "retail"
  = ("wholesale", "424410").
Proof. reflexivity. Qed.

Example load_cursor_ok :
  Cursor.load_cursor (Cursor.save_cursor 3 5) 5 = 3.
Proof. reflexivity. Qed.

Example py_int_string : py_int (JStr " -1_000 ") = Some (-1000).
Proof. reflexivity. Qed.

Example element_uid_node :
  element_uid {| el_type := Some "node"; el_id := Some 42; el_tags := None;
                 el_lat := None; el_lon := None; el_center := None |} = Some "n_42".
Proof. reflexivity. Qed.

End Examples.

Import Config Cursor Ledger Osm Runner Steps SpecClassify.

(** Case analysis on every [match] of the goal, remembering equations. *)
Ltac case_matches :=
  repeat match goal with
  | |- context [match ?x with _ => _ end] => destruct x eqn:?
  end.

(** Boolean comparisons on [Z] turned into propositions. *)
Ltac zbool :=
  repeat match goal with
  | H : (_ =? _) = true |- _ => apply Z.eqb_eq in H
  | H : (_ =? _) = false |- _ => apply Z.eqb_neq in H
  | H : (_ <? _) = true |- _ => apply Z.ltb_lt in H
  | H : (_ <? _) = false |- _ => apply Z.ltb_ge in H
  | H : (_ <=? _) = true |- _ => apply Z.leb_le in H
  | H : (_ <=? _) = false |- _ => apply Z.leb_gt in H
  | H : (_ || _)%bool = true |- _ => apply orb_true_iff in H as [H|H]
  | H : (_ || _)%bool = false |- _ => apply orb_false_iff in H as [? ?]
  | H : negb _ = true |- _ => apply negb_true_iff in H
  | H : negb _ = false |- _ => apply negb_false_iff in H
  end.

Lemma load_cursor_obj_cases (obj : pydict jvalue) (total_count : Z) :
  load_cursor (CursorPresent (Some (JObj obj))) total_count = 0
  \/ (exists i t, py_int (dict_get_default obj "index" (JInt 0)) = Some i
        /\ py_int (dict_get_default obj "total" (JInt total_count)) = Some t
        /\ t = total_count /\ 0 <= i < total_count
        /\ load_cursor (CursorPresent (Some (JObj obj))) total_count = i).
Proof.
  unfold load_cursor.
  destruct (py_int (dict_get_default obj "index" (JInt 0))) as [i|] eqn:Hi; [|auto].
  destruct (py_int (dict_get_default obj "total" (JInt total_count))) as [t|] eqn:Ht; [|auto].
  destruct (negb (t =? total_count) || (i <? 0) || (total_count <=? i))%bool eqn:Hc; [auto|].
  right. zbool. exists i, t. repeat split; auto; lia.
Qed.

(** C2: whatever the cursor file holds, [load_cursor] returns an index in
    [0, total_count) when total_count > 0; it returns 0 when the stored total
    differs, the stored index is out of range, or the file cannot be read as
    a cursor; and the seen-set loaded at start-up is the one read from the
    ledger file, whatever the cursor. *)
Theorem load_cursor_bounded_and_resets (py_str_other : jvalue -> string)
    (fs : files) (total_count : Z) (Hpos : 0 < total_count) :
  0 <= load_cursor (f_cursor fs) total_count < total_count
  /\ (((exists t, stored_total (f_cursor fs) = Some t /\ t <> total_count)
       \/ (exists i, stored_index (f_cursor fs) = Some i /\ (i < 0 \/ total_count <= i))
       \/ unparsable (f_cursor fs) = true)
      -> load_cursor (f_cursor fs) total_count = 0)
  /\ option_map snd (startup py_str_other fs total_count)
     = load_seen_ids py_str_other (f_ledger fs).
Proof.
  split; [|split].
  - destruct (f_cursor fs) as [|[[]|]]; try (simpl; lia).
    destruct (load_cursor_obj_cases fields total_count)
      as [->|(i & t & _ & _ & _ & ? & ->)]; lia.
  - unfold stored_total, stored_index, unparsable, load_cursor, dict_get_default.
    destruct (f_cursor fs) as [|[[]|]]; auto.
    intros Hc.
    destruct (dict_get fields "index") as [vi|] eqn:Hvi;
    destruct (dict_get fields "total") as [vt|] eqn:Hvt;
    case_matches; auto; zbool;
    destruct Hc as [(? & Hs & ?)|[(? & Hs & ?)|Hs]]; try discriminate;
    simplify_eq; lia.
  - unfold startup. destruct (load_seen_ids py_str_other (f_ledger fs)); reflexivity.
Qed.

Lemma load_cursor_bounded_and_resets_witness :
  0 < 5 /\
  0 <= load_cursor (CursorPresent (Some (JObj [("index", JInt 7); ("total", JInt 9)]))) 5 < 5
  /\ (((exists t, stored_total (CursorPresent (Some (JObj [("index", JInt 7); ("total", JInt 9)]))) = Some t /\ t <> 5)
       \/ (exists i, stored_index (CursorPresent (Some (JObj [("index", JInt 7); ("total", JInt 9)]))) = Some i /\ (i < 0 \/ 5 <= i))
       \/ unparsable (CursorPresent (Some (JObj [("index", JInt 7); ("total", JInt 9)]))) = true)
      -> load_cursor (CursorPresent (Some (JObj [("index", JInt 7); ("total", JInt 9)]))) 5 = 0)
  /\ option_map snd (startup (fun _ => "") {| f_cursor := CursorPresent (Some (JObj [("index", JInt 7); ("total", JInt 9)])); f_ledger := LedgerMissing |} 5)
     = load_seen_ids (fun _ => "") LedgerMissing.
Proof.
  split; [lia|].
  exact (load_cursor_bounded_and_resets (fun _ => "")
           {| f_cursor := CursorPresent (Some (JObj [("index", JInt 7); ("total", JInt 9)]));
              f_ledger := LedgerMissing |} 5 ltac:(lia)).
Defined.

(** C10: a saved cursor (i, t) loads back as i against an unchanged list
    length t when 0 <= i < t, and as 0 against any other length or when
    i lies outside [0, t). *)
Theorem save_load_cursor_roundtrip (i t t' : Z) :
  (0 < t -> 0 <= i < t -> load_cursor (save_cursor i t) t = i)
  /\ (t' <> t -> load_cursor (save_cursor i t) t' = 0)
  /\ (i < 0 \/ t <= i -> load_cursor (save_cursor i t) t = 0).
Proof.
  unfold load_cursor, save_cursor, dict_get_default; simpl.
  split; [|split]; intros.
  - rewrite Z.eqb_refl. simpl.
    destruct (i <? 0) eqn:?; destruct (t <=? i) eqn:?; simpl; zbool; lia.
  - destruct (t =? t') eqn:E; [apply Z.eqb_eq in E; lia|reflexivity].
  - rewrite Z.eqb_refl. simpl.
    destruct (i <? 0) eqn:?; destruct (t <=? i) eqn:?; simpl; zbool; lia.
Qed.

Lemma save_load_cursor_roundtrip_witness :
  load_cursor (save_cursor 2 5) 5 = 2
  /\ load_cursor (save_cursor 2 5) 4 = 0
  /\ load_cursor (save_cursor 5 5) 5 = 0.
Proof.
  destruct (save_load_cursor_roundtrip 2 5 4) as [H1 [H2 _]].
  destruct (save_load_cursor_roundtrip 5 5 4) as [_ [_ H3]].
  split; [apply H1; lia|split; [apply H2; lia|apply H3; lia]].
Defined.

(** C4: when the one-location script fails (non-zero exit status), the
    iteration logs the failure, advances the cursor by one position modulo
    the list length and saves it, and leaves the ledger, the seen-set and
    the output sink unchanged. *)
Theorem failed_location_advances_cursor (total : Z) (loc : string) (st : sched) (e : exn) :
  let st' := sched_step total loc st (inl e) in
  s_ledger st' = s_ledger st
  /\ s_seen st' = s_seen st
  /\ s_emitted st' = s_emitted st
  /\ s_idx st' = (s_idx st + 1) mod total
  /\ s_cursor st' = save_cursor ((s_idx st + 1) mod total) total
  /\ s_log st' = s_log st ++ [LogRunFailed loc].
Proof.
  cbn. repeat split.
  - unfold append_seen_ids. rewrite decide_True; [reflexivity|set_solver].
  - set_solver.
  - apply app_nil_r.
Qed.

(** C9: the stop check run before each location consults only the time
    budget when one is configured (MAX_JOB_SECONDS <> 0) and only the count
    budget otherwise; when it fires, the loop ends without processing the
    location. *)
Theorem stop_condition_precedence (cfg : config) (locations : list (string * Q))
    (st : sched) (t : tick) (ts : list tick) (elapsed : Q) (processed : Z) :
  should_stop cfg elapsed processed
  = (if MAX_JOB_SECONDS cfg =? 0 then BATCH_SIZE cfg <=? processed
     else Qle_bool (inject_Z (MAX_JOB_SECONDS cfg)) elapsed)
  /\ (should_stop cfg (t_elapsed t) (s_processed st) = true
      -> sched_loop cfg locations st (t :: ts) = st).
Proof.
  split.
  - unfold should_stop. destruct (MAX_JOB_SECONDS cfg =? 0); simpl;
      [reflexivity|apply orb_false_r].
  - intros H. simpl. rewrite H. reflexivity.
Qed.

Lemma stop_condition_precedence_witness :
  should_stop Stubs.cfg_default 20000 0 = true
  /\ (should_stop Stubs.cfg_default 20000 0
      = (if MAX_JOB_SECONDS Stubs.cfg_default =? 0 then BATCH_SIZE Stubs.cfg_default <=? 0
         else Qle_bool (inject_Z (MAX_JOB_SECONDS Stubs.cfg_default)) 20000)
      /\ (should_stop Stubs.cfg_default
            (t_elapsed {| t_elapsed := 20000; t_provider := Stubs.always_throttled |})
            (s_processed Stubs.st_empty) = true
          -> sched_loop Stubs.cfg_default [("Northwood, NH", 10 # 1)] Stubs.st_empty
               [{| t_elapsed := 20000; t_provider := Stubs.always_throttled |}]
             = Stubs.st_empty)).
Proof.
  split; [reflexivity|].
  exact (stop_condition_precedence Stubs.cfg_default [("Northwood, NH", 10 # 1)] Stubs.st_empty
           {| t_elapsed := 20000; t_provider := Stubs.always_throttled |} [] 20000 0).
Defined.

(** The indices visited by consecutive iterations. *)
Lemma sched_steps_visited (total : Z) outs : forall (st : sched),
  0 < total -> 0 <= s_idx st < total ->
  s_visited (sched_steps total st outs)
  = s_visited st ++ map (fun k => (s_idx st + Z.of_nat k) mod total) (seq 0 (length outs)).
Proof.
  induction outs as [|[loc res] outs IH]; intros st Ht Hs.
  - simpl. rewrite app_nil_r. reflexivity.
  - simpl.
    assert (Hidx : s_idx (sched_step total loc st res) = (s_idx st + 1) mod total)
      by (unfold sched_step; destruct (run_one loc res) as [[? ?] ?]; reflexivity).
    assert (Hvis : s_visited (sched_step total loc st res) = s_visited st ++ [s_idx st])
      by (unfold sched_step; destruct (run_one loc res) as [[? ?] ?]; reflexivity).
    rewrite IH; [|lia|rewrite Hidx; apply Z.mod_pos_bound; lia].
    rewrite Hvis, Hidx, <- app_assoc. f_equal. simpl.
    rewrite Z.add_0_r, (Z.mod_small (s_idx st) total) by lia. f_equal.
    rewrite <- seq_shift, map_map. apply map_ext. intros k.
    rewrite Zplus_mod_idemp_l. f_equal. lia.
Qed.

Lemma mod_shift_inj (s t a b : Z) :
  0 < t -> 0 <= a < t -> 0 <= b < t -> (s + a) mod t = (s + b) mod t -> a = b.
Proof.
  intros Ht Ha Hb H.
  pose proof (Z.div_mod (s + a) t ltac:(lia)) as Ea.
  pose proof (Z.div_mod (s + b) t ltac:(lia)) as Eb.
  rewrite H in Ea.
  assert (Hd : a - b = t * ((s + a) / t - (s + b) / t)) by lia.
  destruct (Z.eq_dec ((s + a) / t - (s + b) / t) 0) as [E|E].
  - rewrite E in Hd. lia.
  - assert (1 <= Z.abs ((s + a) / t - (s + b) / t)) by lia.
    assert (t <= Z.abs (a - b)) by (rewrite Hd, Z.abs_mul, Z.abs_eq by lia; nia).
    lia.
Qed.

(** C6: from any valid starting index, total_count consecutive iterations
    visit every index of [0, total_count) exactly once. *)
Theorem wraparound_visits_each_once (total : Z) (st : sched)
    (outs : list (string * (exn + list (list row))))
    (Ht : 0 < total) (Hs : 0 <= s_idx st < total) (Hlen : Z.of_nat (length outs) = total) :
  let v := drop (length (s_visited st)) (s_visited (sched_steps total st outs)) in
  NoDup v /\ (forall j, j ∈ v <-> 0 <= j < total).
Proof.
  cbv zeta. rewrite sched_steps_visited by assumption.
  rewrite drop_app_length. split.
  - apply NoDup_fmap_2_strong; [|apply NoDup_seq].
    intros x y Hx Hy Hxy.
    apply elem_of_seq in Hx, Hy.
    apply Nat2Z.inj. eapply mod_shift_inj; [exact Ht| | |exact Hxy]; lia.
  - intros j. rewrite list_elem_of_fmap. split.
    + intros (k & -> & _). apply Z.mod_pos_bound. lia.
    + intros Hj. exists (Z.to_nat ((j - s_idx st) mod total)).
      pose proof (Z.mod_pos_bound (j - s_idx st) total Ht).
      split.
      * rewrite Z2Nat.id by lia. rewrite Zplus_mod_idemp_r.
        replace (s_idx st + (j - s_idx st)) with j by lia.
        rewrite Z.mod_small by lia. reflexivity.
      * apply elem_of_seq. lia.
Qed.

Lemma wraparound_visits_each_once_witness :
  0 < 3 /\ 0 <= s_idx Stubs.st_at1 < 3 /\ Z.of_nat (length Stubs.three_outcomes) = 3 /\
  (NoDup (drop (length (s_visited Stubs.st_at1))
            (s_visited (sched_steps 3 Stubs.st_at1 Stubs.three_outcomes)))
   /\ (forall j, j ∈ drop (length (s_visited Stubs.st_at1))
                    (s_visited (sched_steps 3 Stubs.st_at1 Stubs.three_outcomes))
                 <-> 0 <= j < 3)).
Proof.
  split; [lia|split; [simpl; lia|split; [reflexivity|]]].
  apply (wraparound_visits_each_once 3 Stubs.st_at1 Stubs.three_outcomes
           ltac:(lia) ltac:(simpl; lia) eq_refl).
Defined.

(** Case analysis on the [match]es of a hypothesis. *)
Ltac case_matches_in H :=
  repeat match type of H with
  | context [match ?x with _ => _ end] => destruct x eqn:?
  end.

(** [parse_elements] sends no request, returns rows with distinct ids none
    of which was in the incoming set, and returns a set holding the incoming
    ids and those of the rows. *)
Lemma parse_elements_spec (els : list element) (loc hint : string) :
  forall (seen seen' : gset string) (n n' : nat) (rows : list row),
  parse_elements els loc hint seen n = (inr (rows, seen'), n') ->
  n' = n /\ NoDup (map r_place_id rows)
  /\ (forall r, r ∈ rows -> (r_place_id r ∉ seen) /\ (r_place_id r ∈ seen'))
  /\ seen ⊆ seen'.
Proof.
  induction els as [|el els IH]; intros seen seen' n n' rows H.
  - simpl in H. unfold mret, M_ret in H. simplify_eq. split; [reflexivity|].
    split; [constructor|]. split; [intros r Hr; inversion Hr|set_solver].
  - simpl in H. destruct (element_uid el) as [uid|]; [|unfold raise in H; discriminate].
    destruct (decide (uid ∈ seen)) as [Hin|Hnin].
    + exact (IH _ _ _ _ _ H).
    + unfold mbind, M_bind in H.
      destruct (parse_elements els loc hint ({[uid]} ∪ seen) n)
        as [[e|[rows0 seen0]] n0] eqn:E; [discriminate|].
      unfold mret, M_ret in H. simplify_eq.
      destruct (IH _ _ _ _ _ E) as (-> & Hnd & Hrows & Hsub).
      split; [reflexivity|]. split; [|split].
      * simpl. constructor; [|exact Hnd].
        intros Hm. apply list_elem_of_fmap in Hm as (r & Hr & Hm).
        destruct (Hrows r Hm) as [Hn _]. apply Hn. unfold make_row in Hr.
        destruct (extract_center el), (classify _ _). simpl in Hr. set_solver.
      * intros r Hr. apply elem_of_cons in Hr as [->|Hr].
        -- unfold make_row. destruct (extract_center el), (classify _ _). simpl.
           set_solver.
        -- destruct (Hrows r Hr). set_solver.
      * set_solver.
Qed.

(** C7: within one run of the fetch-and-classify operation, a candidate
    whose id was already seen in that run, in the retail or the wholesale
    pass, is skipped: the rows returned have pairwise distinct ids. *)
Theorem run_one_location_unique_ids (P : provider) (loc : string) (radius : Q)
    (n n' : nat) (rows : list row)
    (H : run_one_location_osm P loc radius n = (inr rows, n')) :
  NoDup (map r_place_id rows).
Proof.
  unfold run_one_location_osm, geocode_nominatim, overpass_query, request,
    mbind, M_bind, mret, M_ret in H.
  case_matches_in H; simplify_eq; try constructor.
  match goal with
  | E1 : parse_elements _ _ "retail" ∅ _ = (inr (?r1, ?s1), _),
    E2 : parse_elements _ _ "wholesale" ?s1 _ = (inr (?r2, _), _) |- _ =>
      destruct (parse_elements_spec _ _ _ _ _ _ _ _ E1) as (_ & Hnd1 & Hr1 & _);
      destruct (parse_elements_spec _ _ _ _ _ _ _ _ E2) as (_ & Hnd2 & Hr2 & _)
  end.
  rewrite map_app. apply NoDup_app. split; [exact Hnd1|split; [|exact Hnd2]].
  intros x Hx1 Hx2.
  apply list_elem_of_fmap in Hx1 as (r1 & -> & Hm1).
  apply list_elem_of_fmap in Hx2 as (r2 & Heq & Hm2).
  destruct (Hr1 r1 Hm1) as [_ Hin]. destruct (Hr2 r2 Hm2) as [Hnin _].
  rewrite Heq in Hin. contradiction.
Qed.

Lemma run_one_location_unique_ids_witness :
  run_one_location_osm Stubs.overlapping_provider "Northwood, NH" (10 # 1) 0%nat
  = (inr [make_row Stubs.market_node "n_1" "Northwood, NH" "retail"], 3%nat)
  /\ NoDup (map r_place_id [make_row Stubs.market_node "n_1" "Northwood, NH" "retail"]).
Proof.
  assert (H : run_one_location_osm Stubs.overlapping_provider "Northwood, NH" (10 # 1) 0%nat
              = (inr [make_row Stubs.market_node "n_1" "Northwood, NH" "retail"], 3%nat))
    by (vm_compute; reflexivity).
  split; [exact H|].
  exact (run_one_location_unique_ids _ _ _ _ _ _ H).
Defined.

(** *** Substring facts used by the classifier *)

(** stdpp makes [String.append] opaque to [simpl]; its two equations. *)
Lemma str_app_nil (b : string) : EmptyString +:+ b = b.
Proof. reflexivity. Qed.

Lemma str_app_cons (x : ascii) (a b : string) : String x a +:+ b = String x (a +:+ b).
Proof. reflexivity. Qed.

Lemma str_app_assoc (a b c : string) : (a +:+ b) +:+ c = a +:+ (b +:+ c).
Proof. induction a as [|x a IH]; [reflexivity|now rewrite !str_app_cons, IH]. Qed.

Lemma str_app_nil_r (a : string) : a +:+ EmptyString = a.
Proof. induction a as [|x a IH]; [reflexivity|now rewrite str_app_cons, IH]. Qed.

Lemma starts_with_spec (p s : string) :
  starts_with p s = true <-> exists t, s = p +:+ t.
Proof.
  revert s. induction p as [|c p IH]; intros s; simpl.
  - split; [intros _; exists s; reflexivity|auto].
  - destruct s as [|d s].
    + split; [discriminate|intros [t Ht]; discriminate].
    + rewrite andb_true_iff, IH. split.
      * intros [Hc [t ->]]. apply Ascii.eqb_eq in Hc. subst. exists t. reflexivity.
      * intros [t Ht]. rewrite str_app_cons in Ht.
        injection Ht as -> ->. split; [apply Ascii.eqb_refl|].
        exists t. reflexivity.
Qed.

Lemma contains_spec (n h : string) :
  contains n h = true <-> exists x y, h = x +:+ n +:+ y.
Proof.
  induction h as [|c h IH]; simpl; rewrite orb_true_iff, starts_with_spec.
  - split.
    + intros [[t Ht]|]; [|discriminate]. exists EmptyString, EmptyString.
      destruct n; [reflexivity|discriminate].
    + intros (x & y & Hxy). left. exists y.
      destruct x; [exact Hxy|discriminate].
  - rewrite IH. split.
    + intros [[t Ht]|(x & y & ->)].
      * exists EmptyString, t. exact Ht.
      * exists (String c x), y. reflexivity.
    + intros (x & y & Hxy). destruct x as [|c' x].
      * left. exists y. exact Hxy.
      * right. rewrite str_app_cons in Hxy. injection Hxy as -> ->.
        exists x, y. reflexivity.
Qed.

Lemma lower_app (a b : string) : lower (a +:+ b) = lower a +:+ lower b.
Proof.
  induction a as [|x a IH]; [reflexivity|].
  rewrite str_app_cons. simpl. now rewrite IH, str_app_cons.
Qed.

Lemma join_contains (sep x : string) (xs : list string) :
  In x xs -> contains x (join sep xs) = true.
Proof.
  intros Hin. apply contains_spec.
  induction xs as [|x0 xs IH]; [destruct Hin|].
  destruct Hin as [->|Hin].
  - destruct xs as [|x1 xs].
    + exists EmptyString, EmptyString. simpl. now rewrite str_app_nil_r.
    + exists EmptyString, (sep +:+ join sep (x1 :: xs)). reflexivity.
  - destruct xs as [|x1 xs]; [destruct Hin|].
    destruct (IH Hin) as (a & b & Hab).
    exists (x0 +:+ sep +:+ a), b.
    change (join sep (x0 :: x1 :: xs)) with (x0 +:+ sep +:+ join sep (x1 :: xs)).
    rewrite Hab, !str_app_assoc. reflexivity.
Qed.

Lemma dict_get_In {V} (d : pydict V) (k : string) (v : V) :
  dict_get d k = Some v -> In (k, v) d.
Proof.
  induction d as [|[k' v'] d IH]; simpl; [discriminate|].
  destruct (String.eqb_spec k k') as [->|_].
  - intros [= ->]. now left.
  - intros H. right. now apply IH.
Qed.

(** A tag [wholesale=*] puts the word "wholesale" in the keyword text. *)
Lemma wholesale_tag_in_blob (name : string) (tags : pydict string) (v : string) :
  tag_is tags ("wholesale", v) = true ->
  contains "wholesale" (blob_of name tags) = true.
Proof.
  unfold tag_is. simpl. destruct (dict_get tags "wholesale") as [v'|] eqn:E;
    [intros _|discriminate].
  apply dict_get_In in E.
  assert (Hj : contains (fmt_tag ("wholesale", v')) (join " " (map fmt_tag tags)) = true)
    by (apply join_contains, in_map, E).
  apply contains_spec in Hj as (x & y & Hxy).
  apply contains_spec. unfold blob_of. rewrite Hxy.
  exists (lower (name +:+ " " +:+ x)), (lower ("=" +:+ v' +:+ y)).
  rewrite !lower_app, !str_app_assoc. reflexivity.
Qed.

(** *** The tag tables *)

Lemma find_kv_app (tags : pydict string) (l1 l2 : list (string * string)) :
  find_kv tags (l1 ++ l2)
  = match find_kv tags l1 with Some kv => Some kv | None => find_kv tags l2 end.
Proof. induction l1 as [|kv l1 IH]; simpl; [reflexivity|now destruct (tag_is tags kv)]. Qed.

Lemma find_kv_some (tags : pydict string) (l : list (string * string)) kv :
  find_kv tags l = Some kv -> In kv l /\ tag_is tags kv = true.
Proof.
  induction l as [|kv' l IH]; simpl; [discriminate|].
  destruct (tag_is tags kv') eqn:E.
  - intros [= <-]. auto.
  - intros H. destruct (IH H). auto.
Qed.


Lemma wholesale_tags_shape (k v : string) :
  In (k, v) WHOLESALE_OSM_TAGS -> (k = "shop" /\ v = "wholesale") \/ k = "wholesale".
Proof. simpl. intros H. repeat destruct H as [H|H]; simplify_eq; auto; contradiction. Qed.






Lemma detect_matched_kv_find (tags : pydict string) :
  detect_matched_kv tags = find_kv tags (WHOLESALE_OSM_TAGS ++ RETAIL_OSM_TAGS).
Proof.
  unfold detect_matched_kv.
  destruct (find_kv tags (WHOLESALE_OSM_TAGS ++ RETAIL_OSM_TAGS)) eqn:E; [reflexivity|].
  rewrite find_kv_app in E.
  destruct (find_kv tags WHOLESALE_OSM_TAGS) eqn:Ew; [discriminate|].
  unfold WHOLESALE_OSM_TAGS in Ew. cbn [find_kv] in Ew.
  destruct (tag_is tags ("shop", "wholesale")) eqn:Et; [discriminate|].
  unfold tag_is in Et. cbn [fst snd] in Et.
  destruct (dict_get tags "shop") as [v|]; [|reflexivity].
  rewrite Et. reflexivity.
Qed.









(** C1, counterexample: the ledger holds [n_1]; the provider returns the
    node [n_1]; the run moves a row with id [n_1] into the output sink. *)
Lemma ledger_id_reemitted :
  load_seen_ids (fun _ => "") (LedgerLines [ledger_entry "n_1"]) = Some {["n_1"]}
  /\ match main (fun _ => "") Stubs.cfg_default [("Northwood, NH", 10 # 1)]
             {| f_cursor := CursorMissing; f_ledger := LedgerLines [ledger_entry "n_1"] |}
             [{| t_elapsed := 0; t_provider := Stubs.overlapping_provider |}] with
     | MainDone st => exists r, In r (s_emitted st) /\ r_place_id r = "n_1"
     | _ => False
     end.
Proof.
  split; [vm_compute; reflexivity|].
  vm_compute. eexists. split; [left; reflexivity|reflexivity].
Qed.

(** C1, as the code does it: on a successful script run every row the
    script wrote is moved to the output sink, whether or not its id is in
    the ledger; only the ledger append is filtered (the ids not yet in the
    seen-set), and the seen-set grows by all the ids. *)
Theorem successful_location_emission (total : Z) (loc : string) (st : sched)
    (created : list (list row)) :
  let new_ids : gset string := list_to_set (map r_place_id (concat created)) in
  let st' := sched_step total loc st (inr created) in
  s_emitted st' = s_emitted st ++ concat created
  /\ s_ledger st' = append_seen_ids (s_ledger st) (new_ids ∖ s_seen st)
  /\ (forall pid, pid ∈ new_ids ∖ s_seen st -> pid ∉ s_seen st)
  /\ s_seen st' = s_seen st ∪ new_ids
  /\ s_cursor st' = save_cursor ((s_idx st + 1) mod total) total.
Proof.
  cbv zeta. unfold sched_step, run_one. cbn.
  split; [reflexivity|split; [reflexivity|split; [set_solver|split; reflexivity]]].
Qed.

(** C3, counterexample: against a provider that always answers 429, the
    fetch-and-classify operation sends one request and raises; it neither
    retries nor returns an empty result. *)
Lemma throttled_provider_not_retried :
  run_one_location_osm Stubs.always_throttled "Northwood, NH" (10 # 1) 0%nat
  = (inl HTTPError, 1%nat).
Proof. reflexivity. Qed.

(** C3, as the code does it: no boundary call is retried; a non-success
    response raises after that one request. When geocoding fails this way
    the script raises after a single request, and the runner maps the
    failed run to an empty id set, no rows and a logged failure. *)
Theorem boundary_failure_not_retried (P : provider) (loc : string) (radius : Q)
    (Hgeo : forall n q, is_ok (nominatim P n q) = false) :
  (forall (A : Type) (resp : nat -> response A) (n : nat),
     is_ok (resp n) = false -> exists e, request resp n = (inl e, S n))
  /\ (exists e, script_main P loc radius 0%nat = (inl e, 1%nat)
                /\ run_one loc (inl e) = (∅, [], [LogRunFailed loc])).
Proof.
  assert (Hreq : forall (A : Type) (resp : nat -> response A) (n : nat),
            is_ok (resp n) = false -> exists e, request resp n = (inl e, S n)).
  { intros A resp n H. unfold request.
    destruct (resp n); [discriminate|eauto..]. }
  split; [exact Hreq|].
  destruct (Hreq _ (fun n => nominatim P n loc) 0%nat (Hgeo 0%nat loc)) as [e He].
  exists e. split; [|reflexivity].
  unfold script_main, run_one_location_osm, geocode_nominatim, mbind, M_bind.
  rewrite He. reflexivity.
Qed.

Lemma boundary_failure_not_retried_witness :
  (forall n q, is_ok (nominatim Stubs.always_throttled n q) = false)
  /\ ((forall (A : Type) (resp : nat -> response A) (n : nat),
         is_ok (resp n) = false -> exists e, request resp n = (inl e, S n))
      /\ (exists e, script_main Stubs.always_throttled "Northwood, NH" (10 # 1) 0%nat
                    = (inl e, 1%nat)
                    /\ run_one "Northwood, NH" (inl e)
                       = (∅, [], [LogRunFailed "Northwood, NH"]))).
Proof.
  assert (H : forall n q, is_ok (nominatim Stubs.always_throttled n q) = false)
    by reflexivity.
  split; [exact H|exact (boundary_failure_not_retried _ _ _ H)].
Defined.

(** C8, counterexample: a ledger whose first line is not JSON still loads,
    with the ids of the other lines, and the run goes on. *)
Lemma corrupt_ledger_run_proceeds :
  load_seen_ids (fun _ => "") (LedgerLines [LText None; ledger_entry "n_1"]) = Some {["n_1"]}
  /\ main (fun _ => "") Stubs.cfg_default [("Northwood, NH", 10 # 1)]
       {| f_cursor := CursorMissing; f_ledger := LedgerLines [LText None; ledger_entry "n_1"] |}
       [] <> MainCrashed.
Proof. split; [vm_compute; reflexivity|vm_compute; discriminate]. Qed.

Lemma fold_seen_step_spec (py_str_other : jvalue -> string) (ls : list ledger_line) :
  forall (s : gset string) (x : string),
  x ∈ fold_left (seen_step py_str_other) ls s
  <-> x ∈ s \/ exists obj pid, In (LText (Some (JObj obj))) ls
                 /\ dict_get obj "place_id" = Some pid /\ py_truthy pid = true
                 /\ x = py_str py_str_other pid.
Proof.
  induction ls as [|l ls IH]; intros s x; simpl.
  - split; [auto|]. intros [H|(? & ? & [] & _)]. exact H.
  - rewrite IH. split.
    + intros [H|(obj & pid & Hin & Hrest)]; [|right; exists obj, pid; auto].
      destruct l as [|[[]|]]; simpl in H; auto.
      destruct (dict_get fields "place_id") as [pid|] eqn:E; auto.
      destruct (py_truthy pid) eqn:Et; auto.
      apply elem_of_union in H as [H|H]; auto.
      apply elem_of_singleton in H. right. exists fields, pid. auto.
    + intros [H|(obj & pid & [->|Hin] & Hg & Ht & ->)].
      * left. destruct l as [|[[]|]]; simpl; auto.
        destruct (dict_get fields "place_id"); [|auto].
        destruct (py_truthy j); set_solver.
      * left. simpl. rewrite Hg, Ht. set_solver.
      * right. exists obj, pid. auto.
Qed.

(** C8, as the code does it: only a ledger file that cannot be opened or
    read aborts the run; a missing file gives an empty seen-set, and lines
    that do not decode, are not objects, or lack a truthy [place_id] are
    skipped, the seen-set being built from the other lines. *)
Theorem ledger_load_skips_invalid (py_str_other : jvalue -> string) (cfg : config)
    (locations : list (string * Q)) (fs : files) (ticks : list tick)
    (ls : list ledger_line) (Hne : locations <> []) :
  load_seen_ids py_str_other LedgerMissing = Some ∅
  /\ (main py_str_other cfg locations fs ticks = MainCrashed
      <-> f_ledger fs = LedgerUnreadable)
  /\ exists seen, load_seen_ids py_str_other (LedgerLines ls) = Some seen
     /\ forall x, x ∈ seen
        <-> exists obj pid, In (LText (Some (JObj obj))) ls
            /\ dict_get obj "place_id" = Some pid /\ py_truthy pid = true
            /\ x = py_str py_str_other pid.
Proof.
  split; [reflexivity|split].
  - unfold main, startup.
    destruct (Z.of_nat (length locations) =? 0) eqn:E.
    { apply Z.eqb_eq in E. destruct locations; [congruence|simpl in E; lia]. }
    destruct (f_ledger fs); simpl; split; congruence.
  - eexists. split; [reflexivity|]. intros x.
    rewrite fold_seen_step_spec. set_solver.
Qed.

Lemma ledger_load_skips_invalid_witness :
  [("Northwood, NH", 10 # 1)] <> []
  /\ (load_seen_ids (fun _ => "") LedgerMissing = Some ∅
      /\ (main (fun _ => "") Stubs.cfg_default [("Northwood, NH", 10 # 1)]
            {| f_cursor := CursorMissing; f_ledger := LedgerUnreadable |} [] = MainCrashed
          <-> f_ledger {| f_cursor := CursorMissing; f_ledger := LedgerUnreadable |}
              = LedgerUnreadable)
      /\ exists seen, load_seen_ids (fun _ => "") (LedgerLines [LText None]) = Some seen
         /\ forall x, x ∈ seen
            <-> exists obj pid, In (LText (Some (JObj obj))) [LText None]
                /\ dict_get obj "place_id" = Some pid /\ py_truthy pid = true
                /\ x = py_str (fun _ => "") pid).
Proof.
  assert (H : [("Northwood, NH", 10 # 1)] <> @nil (string * Q)) by discriminate.
  split; [exact H|].
  exact (ledger_load_skips_invalid (fun _ => "") Stubs.cfg_default _
           {| f_cursor := CursorMissing; f_ledger := LedgerUnreadable |} [] [LText None] H).
Defined.

Lemma successful_location_emission_witness :
  let created := [[make_row Stubs.market_node "n_1" "Northwood, NH" "retail"]; []] in
  let new_ids : gset string := list_to_set (map r_place_id (concat created)) in
  let st' := sched_step 1 "Northwood, NH" Stubs.st_empty (inr created) in
  s_emitted st' = s_emitted Stubs.st_empty ++ concat created
  /\ s_ledger st' = append_seen_ids (s_ledger Stubs.st_empty) (new_ids ∖ s_seen Stubs.st_empty)
  /\ (forall pid, pid ∈ new_ids ∖ s_seen Stubs.st_empty -> pid ∉ s_seen Stubs.st_empty)
  /\ s_seen st' = s_seen Stubs.st_empty ∪ new_ids
  /\ s_cursor st' = save_cursor ((s_idx Stubs.st_empty + 1) mod 1) 1.
Proof.
  exact (successful_location_emission 1 "Northwood, NH" Stubs.st_empty
           [[make_row Stubs.market_node "n_1" "Northwood, NH" "retail"]; []]).
Defined.

(* ================================================================== *)
(** * Further properties of the code *)

Import LedgerView RunInvariant.

(** ** The ledger file read back after appending *)

Lemma fold_seen_entries (py_str_other : jvalue -> string) (ids : list string) :
  forall s : gset string,
  fold_left (seen_step py_str_other) (map ledger_entry ids) s
  = s ∪ list_to_set (List.filter (fun x => negb (String.eqb x "")) ids).
Proof.
  induction ids as [|i ids IH]; intros s; simpl.
  - set_solver.
  - rewrite IH. destruct (String.eqb i "") eqn:E; simpl.
    + set_solver.
    + set_solver.
Qed.

Lemma filter_nonempty_elements (ids : gset string) :
  list_to_set (List.filter (fun x => negb (String.eqb x "")) (elements ids))
  = ids ∖ {[ "" ]}.
Proof.
  apply set_eq. intros x.
  rewrite elem_of_list_to_set, elem_of_difference, elem_of_singleton.
  rewrite list_elem_of_In, filter_In, <- list_elem_of_In, elem_of_elements.
  destruct (String.eqb x "") eqn:E; simpl.
  - apply String.eqb_eq in E. subst. split; [intros [_ H]; discriminate|intros [_ H]; congruence].
  - apply String.eqb_neq in E. tauto.
Qed.

Lemma append_then_load (py_str_other : jvalue -> string) (f : ledger_file)
    (ids : gset string) :
  ledger_terminated f = true ->
  load_seen_ids py_str_other (append_seen_ids f ids)
  = option_map (fun s => s ∪ (ids ∖ {[ "" ]})) (load_seen_ids py_str_other f).
Proof.
  intros Hf. unfold append_seen_ids.
  destruct (decide (ids = ∅)) as [->|Hne].
  - destruct f; simpl; f_equal; set_solver.
  - destruct f; simpl in Hf |- *; try discriminate; f_equal.
    + rewrite fold_seen_entries, filter_nonempty_elements. set_solver.
    + rewrite fold_left_app, fold_seen_entries, filter_nonempty_elements. reflexivity.
Qed.

Lemma append_terminated (f : ledger_file) (ids : gset string) :
  ledger_terminated f = true -> ledger_terminated (append_seen_ids f ids) = true.
Proof.
  intros Hf. unfold append_seen_ids.
  destruct (decide (ids = ∅)); [exact Hf|]. destruct f; simpl in Hf |- *; congruence.
Qed.

Lemma append_unterminated_load (py_str_other : jvalue -> string)
    (ls : list ledger_line) (d : option jvalue) (ids : gset string) :
  ids <> ∅ ->
  exists p, p ∈ ids
    /\ load_seen_ids py_str_other (append_seen_ids (LedgerUnterminated ls (LText d)) ids)
       = Some (fold_left (seen_step py_str_other) ls ∅ ∪ (ids ∖ {[ "" ]} ∖ {[ p ]})).
Proof.
  intros Hne. unfold append_seen_ids.
  rewrite decide_False by exact Hne.
  pose proof (NoDup_elements ids) as Hnd.
  destruct (elements ids) as [|p ps] eqn:E.
  { exfalso. apply Hne. apply set_eq. intros x.
    rewrite <- elem_of_elements, E. set_solver. }
  exists p. split; [apply elem_of_elements; rewrite E; left|].
  simpl. f_equal.
  rewrite fold_left_app. simpl. rewrite fold_seen_entries. f_equal.
  apply NoDup_cons in Hnd as [Hp Hnd].
  apply set_eq. intros x.
  rewrite elem_of_list_to_set, !elem_of_difference, !elem_of_singleton.
  rewrite list_elem_of_In, filter_In, <- list_elem_of_In.
  rewrite <- elem_of_elements, E, elem_of_cons.
  destruct (String.eqb x "") eqn:Ex; simpl.
  - apply String.eqb_eq in Ex. subst. split; [intros [_ H]; discriminate|tauto].
  - apply String.eqb_neq in Ex. split.
    + intros [Hx _]. split; [split; [right; exact Hx|exact Ex]|].
      intros ->. contradiction.
    + intros [[[->|Hx] _] Hxp]; [contradiction|]. auto.
Qed.


(** ** Rows produced by the one-location script *)

Lemma element_uid_nonempty (el : element) (uid : string) :
  element_uid el = Some uid -> uid <> "".
Proof.
  unfold element_uid. destruct (match el_type el with Some t => t | None => "?" end);
    [discriminate|]. intros H. injection H as <-. rewrite str_app_cons. discriminate.
Qed.

Lemma parse_elements_rows (els : list element) (loc hint : string) :
  forall (seen seen' : gset string) (n n' : nat) (rows : list row),
  parse_elements els loc hint seen n = (inr (rows, seen'), n') ->
  Forall (fun r => exists el, el ∈ els /\ element_uid el = Some (r_place_id r)
                    /\ r = make_row el (r_place_id r) loc hint) rows.
Proof.
  induction els as [|el els IH]; intros seen seen' n n' rows H.
  - simpl in H. unfold mret, M_ret in H. simplify_eq. constructor.
  - simpl in H. destruct (element_uid el) as [uid|] eqn:Euid;
      [|unfold raise in H; discriminate].
    destruct (decide (uid ∈ seen)) as [Hin|Hnin].
    + eapply Forall_impl; [exact (IH _ _ _ _ _ H)|].
      intros r (e & He & ?). exists e. split; [set_solver|auto].
    + unfold mbind, M_bind in H.
      destruct (parse_elements els loc hint ({[uid]} ∪ seen) n)
        as [[e|[rows0 seen0]] n0] eqn:E; [discriminate|].
      unfold mret, M_ret in H. simplify_eq. constructor.
      * exists el.
        assert (Hp : r_place_id (make_row el uid loc hint) = uid)
          by (unfold make_row; destruct (extract_center el), (classify _ _); reflexivity).
        rewrite Hp. split; [set_solver|split; [exact Euid|reflexivity]].
      * eapply Forall_impl; [exact (IH _ _ _ _ _ E)|].
        intros r (e & He & ?). exists e. split; [set_solver|auto].
Qed.

(** The rows of [run_one_location_osm] come from the two passes, in order. *)
Lemma run_one_location_osm_ok (P : provider) (loc : string) (radius : Q)
    (n n' : nat) (df : list row) :
  run_one_location_osm P loc radius n = (inr df, n') ->
  df = [] \/ exists els1 els2 s1 s2 rows1 rows2 m1 m2,
    parse_elements els1 loc "retail" ∅ m1 = (inr (rows1, s1), m1)
    /\ parse_elements els2 loc "wholesale" s1 m2 = (inr (rows2, s2), m2)
    /\ df = rows1 ++ rows2.
Proof.
  intros H.
  unfold run_one_location_osm, geocode_nominatim, overpass_query, request,
    mbind, M_bind, mret, M_ret in H.
  case_matches_in H; simplify_eq; auto.
  right.
  match goal with
  | E1 : parse_elements ?e1 _ "retail" ∅ ?k1 = (inr (?r1, ?s1), ?k1'),
    E2 : parse_elements ?e2 _ "wholesale" ?s1 ?k2 = (inr (?r2, ?s2), ?k2') |- _ =>
      pose proof (parse_elements_spec _ _ _ _ _ _ _ _ E1) as [? _];
      pose proof (parse_elements_spec _ _ _ _ _ _ _ _ E2) as [? _];
      subst; exists e1, e2, s1, s2, r1, r2, k1, k2; auto
  end.
Qed.

Lemma run_one_location_osm_ids (P : provider) (loc : string) (radius : Q)
    (n n' : nat) (df : list row) :
  run_one_location_osm P loc radius n = (inr df, n') ->
  Forall (fun r => r_place_id r <> "") df.
Proof.
  intros H. destruct (run_one_location_osm_ok _ _ _ _ _ _ H)
    as [->|(els1 & els2 & s1 & s2 & rows1 & rows2 & m1 & m2 & E1 & E2 & ->)];
    [constructor|].
  apply Forall_app. split.
  - eapply Forall_impl; [exact (parse_elements_rows _ _ _ _ _ _ _ _ E1)|].
    intros r (el & _ & Hu & _). exact (element_uid_nonempty _ _ Hu).
  - eapply Forall_impl; [exact (parse_elements_rows _ _ _ _ _ _ _ _ E2)|].
    intros r (el & _ & Hu & _). exact (element_uid_nonempty _ _ Hu).
Qed.

Lemma script_main_ok (P : provider) (loc : string) (radius : Q) (n n' : nat)
    (created : list (list row)) :
  script_main P loc radius n = (inr created, n') ->
  exists df, run_one_location_osm P loc radius n = (inr df, n')
    /\ created = match df with
                 | [] => []
                 | _ => [List.filter (fun r => String.eqb (r_segment r) "wholesale") df;
                         List.filter (fun r => String.eqb (r_segment r) "retail") df]
                 end.
Proof.
  unfold script_main, mbind, M_bind, mret, M_ret.
  destruct (run_one_location_osm P loc radius n) as [[e|df] k] eqn:E;
    [discriminate|].
  intros H. exists df. destruct df; simplify_eq; auto.
Qed.

Lemma script_main_ids (P : provider) (loc : string) (radius : Q) (n : nat)
    (created : list (list row)) :
  fst (script_main P loc radius n) = inr created ->
  Forall (fun r => r_place_id r <> "") (concat created).
Proof.
  destruct (script_main P loc radius n) as [res n'] eqn:E. simpl. intros ->.
  destruct (script_main_ok _ _ _ _ _ _ E) as (df & Hdf & ->).
  pose proof (run_one_location_osm_ids _ _ _ _ _ _ Hdf) as Hids.
  destruct df as [|r0 df0] eqn:Edf; [constructor|]. rewrite <- Edf.
  cbn [concat]. rewrite app_nil_r. rewrite Forall_forall in Hids.
  apply Forall_app. split; apply Forall_forall; intros x Hx;
    rewrite list_elem_of_In, filter_In, <- list_elem_of_In in Hx;
    rewrite Edf in Hx; exact (Hids x (proj1 Hx)).
Qed.

(** ** The scheduler loop *)

(** The ids [run_one] reports: those of the rows it moved. *)
Lemma run_one_ids (loc : string) (result : exn + list (list row)) :
  (run_one loc result).1.1 = list_to_set (map r_place_id (run_one loc result).1.2).
Proof. destruct result; reflexivity. Qed.

Lemma sched_loop_invariant (I : sched -> Prop) (cfg : config)
    (locations : list (string * Q)) :
  (forall st t loc radius, I st ->
     should_stop cfg (t_elapsed t) (s_processed st) = false ->
     locations !! Z.to_nat (s_idx st) = Some (loc, radius) ->
     I (sched_step (Z.of_nat (length locations)) loc st
          (fst (script_main (t_provider t) loc radius 0%nat)))) ->
  forall ticks st, I st -> I (sched_loop cfg locations st ticks).
Proof.
  intros Hstep ticks. induction ticks as [|t ts IH]; intros st Hst; simpl; [exact Hst|].
  destruct (should_stop cfg (t_elapsed t) (s_processed st)) eqn:Es; [exact Hst|].
  destruct (locations !! Z.to_nat (s_idx st)) as [[loc radius]|] eqn:El; [|exact Hst].
  apply IH. exact (Hstep _ _ _ _ Hst Es El).
Qed.

Lemma main_done_cases (py_str_other : jvalue -> string) (cfg : config)
    (locations : list (string * Q)) (fs : files) (ticks : list tick) (st : sched) :
  main py_str_other cfg locations fs ticks = MainDone st ->
  exists seen0,
    0 < Z.of_nat (length locations)
    /\ load_seen_ids py_str_other (f_ledger fs) = Some seen0
    /\ st = sched_loop cfg locations
              {| s_idx := load_cursor (f_cursor fs) (Z.of_nat (length locations));
                 s_processed := 0; s_new_ids_total := 0;
                 s_seen := seen0; s_ledger := f_ledger fs; s_cursor := f_cursor fs;
                 s_emitted := []; s_log := []; s_visited := [] |} ticks.
Proof.
  unfold main, startup.
  destruct (Z.of_nat (length locations) =? 0) eqn:Ez; [discriminate|].
  destruct (load_seen_ids py_str_other (f_ledger fs)) as [seen0|]; [|discriminate].
  intros H. injection H as <-. exists seen0. split; [|split; reflexivity]. lia.
Qed.

Lemma load_save_cursor (i total : Z) :
  0 <= i < total -> load_cursor (save_cursor i total) total = i.
Proof.
  intros Hi. unfold load_cursor, save_cursor. simpl.
  rewrite Z.eqb_refl. simpl.
  destruct (i <? 0) eqn:E1; [apply Z.ltb_lt in E1; lia|].
  destruct (total <=? i) eqn:E2; [apply Z.leb_le in E2; lia|]. reflexivity.
Qed.

Lemma load_cursor_range (f : cursor_file) (total : Z) :
  0 < total -> 0 <= load_cursor f total < total.
Proof.
  intros Hpos. destruct f as [|[[]|]]; try (simpl; lia).
  destruct (load_cursor_obj_cases fields total)
    as [->|(i & t & _ & _ & _ & ? & ->)]; lia.
Qed.

Lemma loop_inv_step (py_str_other : jvalue -> string) (cfg : config)
    (locations : list (string * Q)) (term0 : bool) (seen0 : gset string)
    (ls0 : list ledger_line) (st : sched) (t : tick) (loc : string) (radius : Q) :
  loop_inv py_str_other cfg (Z.of_nat (length locations)) term0 seen0 ls0 st ->
  should_stop cfg (t_elapsed t) (s_processed st) = false ->
  loop_inv py_str_other cfg (Z.of_nat (length locations)) term0 seen0 ls0
    (sched_step (Z.of_nat (length locations)) loc st
       (fst (script_main (t_provider t) loc radius 0%nat))).
Proof.
  set (total := Z.of_nat (length locations)).
  intros (Hidx & Hsub & Hsize & Hcur & Hlen & Hvis & Hbatch & Hled) Hstop.
  assert (Hids : "" ∉ (run_one loc (fst (script_main (t_provider t) loc radius 0%nat))).1.1).
  { rewrite run_one_ids.
    destruct (fst (script_main (t_provider t) loc radius 0%nat)) as [e|created] eqn:E;
      simpl; [set_solver|].
    pose proof (script_main_ids _ _ _ _ _ E) as HF.
    rewrite elem_of_list_to_set, list_elem_of_fmap. intros (r & Hr & Hin).
    rewrite Forall_forall in HF. exact (HF r Hin (eq_sym Hr)). }
  unfold sched_step.
  destruct (run_one loc (fst (script_main (t_provider t) loc radius 0%nat)))
    as [[N moved] lg] eqn:Erun. simpl in Hids.
  assert (Hpos : 0 < total) by lia.
  assert (Hidx' : 0 <= (s_idx st + 1) mod total < total) by (apply Z.mod_pos_bound; lia).
  split; [exact Hidx'|]. simpl.
  split; [set_solver|].
  split.
  { rewrite size_union_alt. lia. }
  split; [exact (load_save_cursor _ _ Hidx')|].
  split; [rewrite length_app; simpl; lia|].
  split; [apply Forall_app; split; [exact Hvis|constructor; [exact Hidx|constructor]]|].
  split.
  { intros Hm. specialize (Hbatch Hm). unfold should_stop in Hstop.
    rewrite Hm in Hstop. simpl in Hstop. apply Z.leb_gt in Hstop. lia. }
  intros Ht. destruct (Hled Ht) as (Hterm & Hload & app & Hls & Hnd & Hall).
  split; [apply append_terminated, Hterm|].
  split.
  { rewrite append_then_load, Hload by exact Hterm. simpl. f_equal. apply set_eq. intros x.
    rewrite !elem_of_union, !elem_of_difference, elem_of_singleton.
    split; [tauto|]. intros [H|H]; [auto|].
    destruct (decide (x ∈ s_seen st)); [auto|]. right. split; [auto|].
    intros ->. contradiction. }
  unfold append_seen_ids.
  destruct (decide (N ∖ s_seen st = ∅)) as [He|He].
  - exists app. split; [exact Hls|split; [exact Hnd|]].
    eapply Forall_impl; [exact Hall|]. simpl. set_solver.
  - exists (app ++ elements (N ∖ s_seen st)). split; [|split].
    + destruct (s_ledger st); simpl in Hls, Hterm |- *; try discriminate.
      * injection Hls as Hls. rewrite map_app, app_assoc, <- Hls. reflexivity.
      * injection Hls as ->. rewrite map_app, app_assoc. reflexivity.
    + apply NoDup_app. split; [exact Hnd|split; [|apply NoDup_elements]].
      intros x Hx Hx'. rewrite Forall_forall in Hall.
      destruct (Hall x Hx) as [_ Hs]. apply elem_of_elements in Hx'. set_solver.
    + apply Forall_app. split.
      * eapply Forall_impl; [exact Hall|]. simpl. set_solver.
      * apply Forall_forall. intros x Hx. apply elem_of_elements in Hx. set_solver.
Qed.

Lemma main_loop_inv (py_str_other : jvalue -> string) (cfg : config)
    (locations : list (string * Q)) (fs : files) (ticks : list tick) (st : sched) :
  main py_str_other cfg locations fs ticks = MainDone st ->
  exists seen0 ls0,
    load_seen_ids py_str_other (f_ledger fs) = Some seen0
    /\ ledger_lines_of (f_ledger fs) = Some ls0
    /\ loop_inv py_str_other cfg (Z.of_nat (length locations))
         (ledger_terminated (f_ledger fs)) seen0 ls0 st.
Proof.
  intros H. destruct (main_done_cases _ _ _ _ _ _ H) as (seen0 & Hpos & Hl & ->).
  destruct (ledger_lines_of (f_ledger fs)) as [ls0|] eqn:Els;
    [|destruct (f_ledger fs); discriminate].
  exists seen0, ls0. split; [exact Hl|split; [reflexivity|]].
  apply sched_loop_invariant.
  - intros st' t loc radius Hi Hs _. exact (loop_inv_step _ _ _ _ _ _ _ _ _ _ Hi Hs).
  - unfold loop_inv; simpl.
    pose proof (load_cursor_range (f_cursor fs) _ Hpos) as Hr.
    repeat split; try lia; try set_solver; auto.
    exists []. rewrite app_nil_r. split; [exact Els|split; constructor].
Qed.

(** X: appending a set of ids to a ledger file that is missing, empty or
    ends with a newline, and reading it back, gives the ids read before
    together with the appended ids, except the empty id, whose line
    [{"place_id": ""}] is skipped as falsy. *)
Theorem ledger_append_load_roundtrip (py_str_other : jvalue -> string)
    (f : ledger_file) (ids : gset string) (Hterm : ledger_terminated f = true) :
  load_seen_ids py_str_other (append_seen_ids f ids)
  = option_map (fun s => s ∪ (ids ∖ {[ "" ]})) (load_seen_ids py_str_other f).
Proof. exact (append_then_load py_str_other f ids Hterm). Qed.

Lemma ledger_append_load_roundtrip_witness :
  ledger_terminated (LedgerLines [ledger_entry "x"]) = true
  /\ load_seen_ids (fun _ => "") (append_seen_ids (LedgerLines [ledger_entry "x"]) {[ "a" ]})
     = option_map (fun s => s ∪ ({[ "a" ]} ∖ {[ "" ]}))
         (load_seen_ids (fun _ => "") (LedgerLines [ledger_entry "x"])).
Proof.
  split; [reflexivity|].
  exact (ledger_append_load_roundtrip (fun _ => "") (LedgerLines [ledger_entry "x"]) {[ "a" ]} eq_refl).
Defined.

(** X: when the ledger file ends in a non-blank line without a newline,
    appending a non-empty set of ids writes the first id's entry on that
    same line, which then fails to decode: reading the file back gives
    the ids of the lines before it and the appended ids but one; the id of
    the last line and the first appended id are lost. *)
Theorem ledger_append_after_unterminated_line (py_str_other : jvalue -> string)
    (ls : list ledger_line) (d : option jvalue) (ids : gset string)
    (Hne : ids <> ∅) :
  exists p, p ∈ ids
    /\ load_seen_ids py_str_other (append_seen_ids (LedgerUnterminated ls (LText d)) ids)
       = Some (fold_left (seen_step py_str_other) ls ∅ ∪ (ids ∖ {[ "" ]} ∖ {[ p ]})).
Proof. exact (append_unterminated_load py_str_other ls d ids Hne). Qed.

Lemma ledger_append_after_unterminated_line_witness :
  load_seen_ids (fun _ => "")
    (LedgerUnterminated [] (LText (Some (JObj [("place_id", JStr "x")])))) = Some {[ "x" ]}
  /\ ({[ "a" ]} : gset string) <> ∅
  /\ exists p, p ∈ ({[ "a" ]} : gset string)
    /\ load_seen_ids (fun _ => "")
         (append_seen_ids (LedgerUnterminated [] (LText (Some (JObj [("place_id", JStr "x")]))))
            {[ "a" ]})
       = Some (fold_left (seen_step (fun _ => "")) [] ∅ ∪ ({[ "a" ]} ∖ {[ "" ]} ∖ {[ p ]})).
Proof.
  split; [vm_compute; reflexivity|].
  assert (Hne : ({[ "a" ]} : gset string) <> ∅) by (intros Hc; vm_compute in Hc; discriminate Hc).
  split; [exact Hne|].
  exact (ledger_append_after_unterminated_line (fun _ => "") [] _ {[ "a" ]} Hne).
Defined.

(** X: when [main] runs its loop from a ledger file that is missing, empty
    or ends with a newline, the ledger file it leaves behind reads back to
    exactly the seen-set it holds in memory at the end. *)
Theorem main_ledger_matches_seen (py_str_other : jvalue -> string) (cfg : config)
    (locations : list (string * Q)) (fs : files) (ticks : list tick) (st : sched)
    (H : main py_str_other cfg locations fs ticks = MainDone st)
    (Hterm : ledger_terminated (f_ledger fs) = true) :
  load_seen_ids py_str_other (s_ledger st) = Some (s_seen st).
Proof.
  destruct (main_loop_inv _ _ _ _ _ _ H) as (seen0 & ls0 & _ & _ & Hi).
  destruct Hi as (_ & _ & _ & _ & _ & _ & _ & Hled).
  destruct (Hled Hterm) as (_ & Hload & _). exact Hload.
Qed.

Lemma main_ledger_matches_seen_witness :
  Demo.demo_run = MainDone Demo.demo_final
  /\ ledger_terminated (f_ledger Demo.demo_files) = true
  /\ load_seen_ids (fun _ => "") (s_ledger Demo.demo_final) = Some (s_seen Demo.demo_final).
Proof.
  assert (H : Demo.demo_run = MainDone Demo.demo_final) by (vm_compute; reflexivity).
  split; [exact H|split; [reflexivity|]].
  exact (main_ledger_matches_seen _ _ _ _ _ _ H eq_refl).
Defined.

(** X: the count of new unique ids that [main] reports is the number of
    ids by which its seen-set grew over the run. *)
Theorem main_new_ids_total_is_growth (py_str_other : jvalue -> string) (cfg : config)
    (locations : list (string * Q)) (fs : files) (ticks : list tick) (st : sched)
    (H : main py_str_other cfg locations fs ticks = MainDone st) :
  exists seen0, load_seen_ids py_str_other (f_ledger fs) = Some seen0
    /\ seen0 ⊆ s_seen st
    /\ Z.of_nat (size (s_seen st)) = Z.of_nat (size seen0) + s_new_ids_total st.
Proof.
  destruct (main_loop_inv _ _ _ _ _ _ H) as (seen0 & ls0 & Hl & _ & Hi).
  exists seen0. destruct Hi as (_ & Hsub & Hsize & _). tauto.
Qed.

Lemma main_new_ids_total_is_growth_witness :
  Demo.demo_run = MainDone Demo.demo_final
  /\ exists seen0, load_seen_ids (fun _ => "") (f_ledger Demo.demo_files) = Some seen0
    /\ seen0 ⊆ s_seen Demo.demo_final
    /\ Z.of_nat (size (s_seen Demo.demo_final))
       = Z.of_nat (size seen0) + s_new_ids_total Demo.demo_final.
Proof.
  assert (H : Demo.demo_run = MainDone Demo.demo_final) by (vm_compute; reflexivity).
  split; [exact H|].
  exact (main_new_ids_total_is_growth _ _ _ _ _ _ H).
Defined.

(** X: the cursor file [main] leaves behind makes the next run over the
    same list start exactly at the index where this run stopped, which is
    a valid index of the list. *)
Theorem main_cursor_resumes (py_str_other : jvalue -> string) (cfg : config)
    (locations : list (string * Q)) (fs : files) (ticks : list tick) (st : sched)
    (H : main py_str_other cfg locations fs ticks = MainDone st) :
  0 <= s_idx st < Z.of_nat (length locations)
  /\ load_cursor (s_cursor st) (Z.of_nat (length locations)) = s_idx st.
Proof.
  destruct (main_loop_inv _ _ _ _ _ _ H) as (seen0 & ls0 & _ & _ & Hi).
  unfold loop_inv in Hi. tauto.
Qed.

Lemma main_cursor_resumes_witness :
  Demo.demo_run = MainDone Demo.demo_final
  /\ 0 <= s_idx Demo.demo_final < Z.of_nat (length Demo.demo_locations)
  /\ load_cursor (s_cursor Demo.demo_final) (Z.of_nat (length Demo.demo_locations))
     = s_idx Demo.demo_final.
Proof.
  assert (H : Demo.demo_run = MainDone Demo.demo_final) by (vm_compute; reflexivity).
  split; [exact H|].
  exact (main_cursor_resumes _ _ _ _ _ _ H).
Defined.

(** X: during a run that starts from a ledger file that is missing, empty
    or ends with a newline, the ledger file is only appended to: its lines
    at start-up stay in place, and the lines added hold pairwise distinct
    ids, none of which was in the ledger at start-up. *)
Theorem main_ledger_append_only (py_str_other : jvalue -> string) (cfg : config)
    (locations : list (string * Q)) (fs : files) (ticks : list tick) (st : sched)
    (H : main py_str_other cfg locations fs ticks = MainDone st)
    (Hterm : ledger_terminated (f_ledger fs) = true) :
  exists seen0 ls0 appended,
    load_seen_ids py_str_other (f_ledger fs) = Some seen0
    /\ ledger_lines_of (f_ledger fs) = Some ls0
    /\ ledger_lines_of (s_ledger st) = Some (ls0 ++ map ledger_entry appended)
    /\ NoDup appended
    /\ Forall (fun x => x ∉ seen0) appended.
Proof.
  destruct (main_loop_inv _ _ _ _ _ _ H) as (seen0 & ls0 & Hl & Hls & Hi).
  destruct Hi as (_ & _ & _ & _ & _ & _ & _ & Hled).
  destruct (Hled Hterm) as (_ & _ & app & Happ & Hnd & Hall).
  exists seen0, ls0, app. repeat split; auto.
  eapply Forall_impl; [exact Hall|]. intros x [? _]. assumption.
Qed.

Lemma main_ledger_append_only_witness :
  Demo.demo_run = MainDone Demo.demo_final
  /\ ledger_terminated (f_ledger Demo.demo_files) = true
  /\ exists seen0 ls0 appended,
    load_seen_ids (fun _ => "") (f_ledger Demo.demo_files) = Some seen0
    /\ ledger_lines_of (f_ledger Demo.demo_files) = Some ls0
    /\ ledger_lines_of (s_ledger Demo.demo_final) = Some (ls0 ++ map ledger_entry appended)
    /\ NoDup appended
    /\ Forall (fun x => x ∉ seen0) appended.
Proof.
  assert (H : Demo.demo_run = MainDone Demo.demo_final) by (vm_compute; reflexivity).
  split; [exact H|split; [reflexivity|]].
  exact (main_ledger_append_only _ _ _ _ _ _ H eq_refl).
Defined.

(** X: without a time budget ([MAX_JOB_SECONDS = 0]) a run processes at
    most [BATCH_SIZE] locations (none when [BATCH_SIZE <= 0]). *)
Theorem main_batch_size_bound (py_str_other : jvalue -> string) (cfg : config)
    (locations : list (string * Q)) (fs : files) (ticks : list tick) (st : sched)
    (H : main py_str_other cfg locations fs ticks = MainDone st)
    (Hnt : MAX_JOB_SECONDS cfg = 0) :
  s_processed st <= Z.max 0 (BATCH_SIZE cfg).
Proof.
  destruct (main_loop_inv _ _ _ _ _ _ H) as (seen0 & ls0 & _ & _ & Hi).
  destruct Hi as (_ & _ & _ & _ & _ & _ & Hb & _).
  exact (Hb Hnt).
Qed.

Lemma main_batch_size_bound_witness :
  Demo.demo_run = MainDone Demo.demo_final
  /\ MAX_JOB_SECONDS Demo.cfg_count = 0
  /\ s_processed Demo.demo_final <= Z.max 0 (BATCH_SIZE Demo.cfg_count).
Proof.
  assert (H : Demo.demo_run = MainDone Demo.demo_final) by (vm_compute; reflexivity).
  split; [exact H|split; [reflexivity|]].
  exact (main_batch_size_bound _ _ _ _ _ _ H eq_refl).
Defined.



(** ** The one-location script *)

Lemma parse_elements_counter (els : list element) (loc hint : string) :
  forall (seen : gset string) (n : nat), snd (parse_elements els loc hint seen n) = n.
Proof.
  induction els as [|el els IH]; intros seen n; simpl; [reflexivity|].
  destruct (element_uid el) as [uid|]; [|reflexivity].
  destruct (decide (uid ∈ seen)); [apply IH|].
  unfold mbind, M_bind.
  specialize (IH ({[uid]} ∪ seen) n).
  destruct (parse_elements els loc hint ({[uid]} ∪ seen) n) as [[e|[rows s']] k];
    simpl in *; congruence.
Qed.

Lemma classify_segment (tags : pydict string) (hint : string) :
  (classify tags hint).1 = "wholesale" \/ (classify tags hint).1 = "retail"
  \/ (classify tags hint).1 = hint.
Proof.
  unfold classify. destruct (detect_matched_kv tags) as [[k v]|]; [|auto].
  unfold infer_segment_and_naics. case_matches; auto.
Qed.

Lemma make_row_segment (el : element) (uid loc hint : string) :
  r_segment (make_row el uid loc hint) = (classify (el_tags_or_empty el) hint).1.
Proof. unfold make_row. destruct (extract_center el), (classify _ _). reflexivity. Qed.

Lemma run_one_location_osm_segments (P : provider) (loc : string) (radius : Q)
    (n n' : nat) (df : list row) :
  run_one_location_osm P loc radius n = (inr df, n') ->
  Forall (fun r => r_segment r = "wholesale" \/ r_segment r = "retail") df.
Proof.
  intros H. destruct (run_one_location_osm_ok _ _ _ _ _ _ H)
    as [->|(els1 & els2 & s1 & s2 & rows1 & rows2 & m1 & m2 & E1 & E2 & ->)];
    [constructor|].
  apply Forall_app. split.
  - eapply Forall_impl; [exact (parse_elements_rows _ _ _ _ _ _ _ _ E1)|].
    intros r (el & _ & _ & Hr). rewrite Hr, make_row_segment.
    destruct (classify_segment (el_tags_or_empty el) "retail") as [->|[->| ->]]; auto.
  - eapply Forall_impl; [exact (parse_elements_rows _ _ _ _ _ _ _ _ E2)|].
    intros r (el & _ & _ & Hr). rewrite Hr, make_row_segment.
    destruct (classify_segment (el_tags_or_empty el) "wholesale") as [->|[->| ->]]; auto.
Qed.

Lemma filter_complement_perm {A} (p q : A -> bool) (l : list A) :
  Forall (fun x => p x = negb (q x)) l ->
  Permutation (List.filter p l ++ List.filter q l) l.
Proof.
  induction l as [|x l IH]; intros Hf; simpl; [constructor|].
  inversion Hf as [|? ? Hx Hl]; subst. specialize (IH Hl).
  rewrite Hx. destruct (q x); simpl.
  - rewrite <- Permutation_middle. constructor. exact IH.
  - constructor. exact IH.
Qed.

(** X: the two CSV files the script writes, Suppliers then Retailers,
    hold together every row of its DataFrame exactly once: each row's
    segment is "wholesale" or "retail", so the two filters drop nothing. *)
Theorem script_main_csvs_partition (P : provider) (loc : string) (radius : Q)
    (n n' : nat) (created : list (list row))
    (H : script_main P loc radius n = (inr created, n')) :
  exists df, run_one_location_osm P loc radius n = (inr df, n')
    /\ Permutation (concat created) df
    /\ Forall (fun r => r_segment r = "wholesale") (nth 0 created [])
    /\ Forall (fun r => r_segment r = "retail") (nth 1 created []).
Proof.
  destruct (script_main_ok _ _ _ _ _ _ H) as (df & Hdf & ->).
  exists df. split; [exact Hdf|].
  pose proof (run_one_location_osm_segments _ _ _ _ _ _ Hdf) as Hseg.
  destruct df as [|r0 df0] eqn:Edf; [simpl; auto|]. rewrite <- Edf in Hseg |- *.
  cbn [concat nth]. rewrite app_nil_r. split; [|split].
  - apply filter_complement_perm. eapply Forall_impl; [exact Hseg|].
    intros r [-> | ->]; reflexivity.
  - apply Forall_forall. intros x Hx.
    rewrite list_elem_of_In, filter_In in Hx. apply String.eqb_eq, Hx.
  - apply Forall_forall. intros x Hx.
    rewrite list_elem_of_In, filter_In in Hx. apply String.eqb_eq, Hx.
Qed.

Lemma script_main_csvs_partition_witness :
  script_main Stubs.overlapping_provider "Northwood, NH" (10 # 1) 0%nat
  = (inr [[make_row Stubs.market_node "n_1" "Northwood, NH" "retail"]; []], 3%nat)
  /\ exists df, run_one_location_osm Stubs.overlapping_provider "Northwood, NH" (10 # 1) 0%nat
                = (inr df, 3%nat)
    /\ Permutation (concat [[make_row Stubs.market_node "n_1" "Northwood, NH" "retail"]; []]) df
    /\ Forall (fun r => r_segment r = "wholesale")
         (nth 0 [[make_row Stubs.market_node "n_1" "Northwood, NH" "retail"]; []] [])
    /\ Forall (fun r => r_segment r = "retail")
         (nth 1 [[make_row Stubs.market_node "n_1" "Northwood, NH" "retail"]; []] []).
Proof.
  assert (H : script_main Stubs.overlapping_provider "Northwood, NH" (10 # 1) 0%nat
    = (inr [[make_row Stubs.market_node "n_1" "Northwood, NH" "retail"]; []], 3%nat))
    by (vm_compute; reflexivity).
  split; [exact H|].
  exact (script_main_csvs_partition _ _ _ _ _ _ H).
Defined.

(** Case analysis on every [match] in the hypotheses, reducing as it goes. *)
Ltac destruct_hyp_matches :=
  repeat (cbv beta iota in *;
          match goal with
          | H : context [match ?x with _ => _ end] |- _ => destruct x eqn:?
          end).

(** X: the script sends at most three requests for a location (one to
    Nominatim, one per Overpass pass), and exactly three whenever it
    returns rows. *)
Theorem run_one_location_osm_request_count (P : provider) (loc : string) (radius : Q)
    (n : nat) :
  (snd (run_one_location_osm P loc radius n) <= n + 3)%nat
  /\ (forall df, fst (run_one_location_osm P loc radius n) = inr df -> df <> [] ->
        snd (run_one_location_osm P loc radius n) = (n + 3)%nat).
Proof.
  destruct (run_one_location_osm P loc radius n) as [res k] eqn:H. simpl.
  unfold run_one_location_osm, geocode_nominatim, overpass_query, request,
    mbind, M_bind, mret, M_ret in H.
  destruct_hyp_matches; simplify_eq;
    repeat match goal with
    | E : parse_elements ?a ?b ?c ?d ?k = (_, ?k') |- _ =>
        let Hc := fresh "Hc" in
        pose proof (parse_elements_counter a b c d k) as Hc;
        rewrite E in Hc; simpl in Hc; subst k'; clear E
    end;
    (split; [lia|intros df Hdf Hne; simplify_eq; try congruence; lia]).
Qed.

(** X: a location that Nominatim does not find, or finds at latitude 0
    ([if not lat] treats 0.0 as missing), yields no rows after that single
    request: Overpass is never queried and no CSV is written. *)
Theorem not_found_or_zero_latitude (P : provider) (loc : string) (radius : Q) (n : nat)
    (data : list (Q * Q))
    (Hresp : nominatim P n loc = RespOk data)
    (Hnone : match data with [] => True | (lat, _) :: _ => lat == 0 end) :
  run_one_location_osm P loc radius n = (inr [], S n)
  /\ script_main P loc radius n = (inr [], S n).
Proof.
  assert (Hr : run_one_location_osm P loc radius n = (inr [], S n)).
  { unfold run_one_location_osm, geocode_nominatim, request, mbind, M_bind, mret, M_ret.
    rewrite Hresp. destruct data as [|[lat lon] rest]; [reflexivity|].
    apply Qeq_bool_iff in Hnone. rewrite Hnone. reflexivity. }
  split; [exact Hr|].
  unfold script_main, mbind, M_bind, mret, M_ret. rewrite Hr. reflexivity.
Qed.

Lemma not_found_or_zero_latitude_witness :
  nominatim Demo.equator_provider 0%nat "Libreville" = RespOk [(0 # 1, 9 # 1)]
  /\ (0 # 1) == 0
  /\ run_one_location_osm Demo.equator_provider "Libreville" (10 # 1) 0%nat = (inr [], 1%nat)
  /\ script_main Demo.equator_provider "Libreville" (10 # 1) 0%nat = (inr [], 1%nat).
Proof.
  split; [reflexivity|split; [reflexivity|]].
  exact (not_found_or_zero_latitude Demo.equator_provider "Libreville" (10 # 1) 0%nat
           [(0 # 1, 9 # 1)] eq_refl (eq_refl : (0 # 1) == 0)).
Defined.

(** ** The classifier and its tables *)

(** X: the generic [shop=wholesale] fallback at the end of
    [detect_matched_kv] never decides anything: ("shop", "wholesale") is
    the first configured wholesale pair, so the loop over the configured
    pairs has already returned it. *)
Theorem detect_matched_kv_fallback_unused (tags : pydict string) :
  detect_matched_kv tags = find_kv tags (WHOLESALE_OSM_TAGS ++ RETAIL_OSM_TAGS).
Proof. exact (detect_matched_kv_find tags). Qed.

Lemma first_keyword_In (table : list (string * string)) (blob code : string) :
  first_keyword table blob = Some code -> In code (map snd table).
Proof.
  induction table as [|[key c] table IH]; simpl; [discriminate|].
  destruct (contains key blob); [intros [= ->]; left; reflexivity|].
  intros H. right. exact (IH H).
Qed.

Lemma infer_wholesale_naics_In (blob : string) :
  In (infer_wholesale_naics blob)
     (DEFAULT_WHOLESALE_NAICS :: map snd WHOLESALE_KEYWORD_TO_NAICS).
Proof.
  unfold infer_wholesale_naics.
  destruct (first_keyword WHOLESALE_KEYWORD_TO_NAICS blob) as [c|] eqn:E.
  - right. exact (first_keyword_In _ _ _ E).
  - left. reflexivity.
Qed.

Lemma table_get_In (table : list ((string * string) * string)) (kv : string * string)
    (code : string) :
  table_get table kv = Some code -> In code (map snd table).
Proof.
  induction table as [|[kv' c] table IH]; simpl; [discriminate|].
  destruct (pair_eqb kv kv'); [intros [= ->]; left; reflexivity|].
  intros H. right. exact (IH H).
Qed.

Lemma retail_tags_in_table (kv : string * string) :
  In kv RETAIL_OSM_TAGS -> table_get OSM_TO_NAICS_RETAIL kv <> None.
Proof.
  simpl. intros H. repeat destruct H as [H|H]; subst; try contradiction;
    intros Hn; vm_compute in Hn; discriminate.
Qed.

Lemma detect_matched_kv_configured (tags : pydict string) (kv : string * string) :
  detect_matched_kv tags = Some kv ->
  In kv (WHOLESALE_OSM_TAGS ++ RETAIL_OSM_TAGS) /\ tag_is tags kv = true.
Proof. rewrite detect_matched_kv_find. apply find_kv_some. Qed.

(** X: the (segment, NAICS) pair given to a row is one of: "wholesale"
    with a code of the wholesale keyword table or the default 424490;
    "retail" with a code of the retail table (never empty); or, only when
    no configured tag is detected, the search pass's segment with an empty
    code. *)
Theorem classify_code_sources (tags : pydict string) (hint_segment : string) :
  let '(segment, naics) := classify tags hint_segment in
  (segment = "wholesale"
     /\ In naics (DEFAULT_WHOLESALE_NAICS :: map snd WHOLESALE_KEYWORD_TO_NAICS))
  \/ (segment = "retail" /\ In naics (map snd OSM_TO_NAICS_RETAIL))
  \/ (segment = hint_segment /\ naics = "" /\ detect_matched_kv tags = None).
Proof.
  unfold classify.
  set (name := dict_get_default tags "name" "").
  destruct (detect_matched_kv tags) as [[k v]|] eqn:Ed; [|right; right; auto].
  destruct (detect_matched_kv_configured _ _ Ed) as [Hin Htag].
  unfold infer_segment_and_naics. cbv beta iota zeta.
  destruct (String.eqb k "shop" && String.eqb v "wholesale")%bool eqn:Esw.
  { left. split; [reflexivity|apply infer_wholesale_naics_In]. }
  destruct (contains "wholesale" (blob_of name tags)
            || contains "distributor" (blob_of name tags)
            || contains "merchant wholesaler" (blob_of name tags))%bool eqn:Ekw.
  { left. split; [reflexivity|apply infer_wholesale_naics_In]. }
  right; left. split; [reflexivity|].
  apply in_app_or in Hin as [Hw|Hr].
  - exfalso. destruct (wholesale_tags_shape k v Hw) as [[-> ->]| ->].
    + discriminate.
    + rewrite (wholesale_tag_in_blob name tags v Htag) in Ekw. discriminate.
  - pose proof (retail_tags_in_table _ Hr) as Hsome.
    destruct (table_get OSM_TO_NAICS_RETAIL (k, v)) as [c|] eqn:Et; [|congruence].
    exact (table_get_In _ _ _ Et).
Qed.

(** X: in the keyword table "beverage" comes before "alcohol", "wine" and
    "beer": a wholesale blob that mentions "beverage" never gets the
    alcohol (424820), beer (424810), cosmetic/health (424210) or chemical
    (424690) codes, whatever else it mentions. *)
Theorem beverage_shadows_alcohol_codes (blob : string)
    (H : contains "beverage" blob = true) :
  In (infer_wholesale_naics blob)
     ["424420"; "424430"; "424460"; "424470"; "424480"; "424410"; "424490"].
Proof.
  unfold infer_wholesale_naics, WHOLESALE_KEYWORD_TO_NAICS. cbn [first_keyword].
  repeat match goal with
  | |- context [if contains ?k blob then _ else _] => destruct (contains k blob) eqn:?
  end; try congruence;
  repeat (first [left; reflexivity | right]).
Qed.

Lemma beverage_shadows_alcohol_codes_witness :
  contains "beverage" (blob_of "Granite State Beverage & Wine Distributors" []) = true
  /\ In (infer_wholesale_naics (blob_of "Granite State Beverage & Wine Distributors" []))
     ["424420"; "424430"; "424460"; "424470"; "424480"; "424410"; "424490"].
Proof.
  assert (H : contains "beverage" (blob_of "Granite State Beverage & Wine Distributors" [])
              = true) by (vm_compute; reflexivity).
  split; [exact H|].
  exact (beverage_shadows_alcohol_codes _ H).
Defined.

(** ** Element identifiers *)

(** X: two elements with ids get the same uid exactly when their ids are
    equal and their [type] strings start with the same character: a node
    and a way with the same numeric id are kept apart, but types sharing
    an initial are not. *)
Theorem element_uid_identifies (el1 el2 : element) (i1 i2 : Z) (u1 u2 : string)
    (Hi1 : el_id el1 = Some i1) (Hi2 : el_id el2 = Some i2)
    (Hu1 : element_uid el1 = Some u1) (Hu2 : element_uid el2 = Some u2) :
  u1 = u2 <-> i1 = i2 /\ String.get 0 (default "?" (el_type el1))
                        = String.get 0 (default "?" (el_type el2)).
Proof.
  unfold element_uid in Hu1, Hu2. rewrite Hi1 in Hu1. rewrite Hi2 in Hu2.
  destruct (el_type el1) as [[|c1 t1]|]; simpl in Hu1; try discriminate;
    injection Hu1 as <-;
  destruct (el_type el2) as [[|c2 t2]|]; simpl in Hu2; try discriminate;
    injection Hu2 as <-; simpl;
  repeat rewrite ?str_app_cons, ?str_app_nil;
  (split; [intros Heq; injection Heq; intros; split;
           [apply (inj pretty); assumption|congruence]
          |intros [-> Hc]; inversion Hc; subst; reflexivity]).
Qed.

Lemma element_uid_identifies_witness :
  el_id Stubs.market_node = Some 1 /\ el_id Demo.untyped_way = Some 5
  /\ element_uid Stubs.market_node = Some "n_1"
  /\ element_uid {| el_type := Some "way"; el_id := Some 1; el_tags := None;
                    el_lat := None; el_lon := None; el_center := None |} = Some "w_1"
  /\ ("n_1" = "w_1" <-> 1 = 1 /\ String.get 0 (default "?" (el_type Stubs.market_node))
                            = String.get 0 (default "?" (Some "way"))).
Proof.
  split; [reflexivity|split; [reflexivity|split; [reflexivity|split; [reflexivity|]]]].
  exact (element_uid_identifies Stubs.market_node
           {| el_type := Some "way"; el_id := Some 1; el_tags := None;
              el_lat := None; el_lon := None; el_center := None |}
           1 1 "n_1" "w_1" eq_refl eq_refl eq_refl eq_refl).
Defined.




(** ** The location list *)

Import Locations PyText CityState Checkpoint.

Lemma omap_length_le {A B} (f : A -> option B) (l : list A) :
  (List.length (omap f l) <= List.length l)%nat.
Proof.
  induction l as [|x l IH]; csimpl; [lia|].
  destruct (f x); csimpl; lia.
Qed.

Lemma location_of_record_nonempty (py_float : string -> option pyfloat)
    (h cols : list string) (loc : string) (radius : pyfloat) :
  location_of_record py_float h cols = Some (loc, radius) -> loc <> "".
Proof.
  unfold location_of_record.
  destruct (parse_record py_float h cols) as [[l r]|]; [|discriminate].
  destruct (String.eqb l "") eqn:E; [discriminate|].
  intros [= <- <-]. apply String.eqb_neq. exact E.
Qed.

(** X: [load_locations] raises ([StopIteration]) exactly when the sniffer
    reports a header and the file has no record; otherwise every location
    it returns is a non-empty string, and it returns at most one location
    per record. *)
Theorem load_locations_shape (py_float : string -> option pyfloat) (inp : csv_input) :
  (load_locations py_float inp = None <-> has_header inp = true /\ records inp = [])
  /\ forall locs, load_locations py_float inp = Some locs ->
       Forall (fun l => l.1 <> "") locs /\ (List.length locs <= List.length (records inp))%nat.
Proof.
  unfold load_locations.
  destruct (has_header inp); [destruct (records inp) as [|hd rest]|];
    cbv beta iota zeta.
  - split; [tauto|intros locs; discriminate].
  - split; [split; [discriminate|intros [_ ?]; discriminate]|].
    intros locs [= <-]. split.
    + apply Forall_forall. intros [l r] Hx.
      apply list_elem_of_omap in Hx as (cols & _ & Hc).
      exact (location_of_record_nonempty _ _ _ _ _ Hc).
    + etransitivity; [apply omap_length_le|]. simpl. lia.
  - split; [split; [discriminate|intros [? _]; discriminate]|].
    intros locs [= <-]. split.
    + apply Forall_forall. intros [l r] Hx.
      apply list_elem_of_omap in Hx as (cols & _ & Hc).
      exact (location_of_record_nonempty _ _ _ _ _ Hc).
    + apply omap_length_le.
Qed.

Lemma dict_get_some_iff {V} (d : pydict V) (k : string) :
  (exists v, dict_get d k = Some v) <-> In k (map fst d).
Proof.
  induction d as [|[k' v'] d IH]; simpl.
  - split; [intros [? ?]; discriminate|tauto].
  - destruct (String.eqb k k') eqn:E.
    + apply String.eqb_eq in E. subst. split; [auto|intros _; eauto].
    + apply String.eqb_neq in E. rewrite IH. split; [auto|intros [->|?]; [congruence|auto]].
Qed.

Lemma map_fst_imap (h : list string) :
  forall g : nat -> string, map fst (imap (fun i k => (k, g i)) h) = h.
Proof.
  induction h as [|k h IH]; intros g; simpl; [reflexivity|].
  f_equal. exact (IH (fun i => g (S i))).
Qed.

Lemma has_key_header_map (h cols : list string) (k : string) :
  has_key (header_map h cols) k = true <-> In k h.
Proof.
  unfold has_key.
  transitivity (exists v, dict_get (header_map h cols) k = Some v).
  { destruct (dict_get _ k); split; eauto; [discriminate|intros [? ?]; discriminate]. }
  unfold header_map.
  rewrite dict_get_some_iff, map_rev, map_fst_imap, <- in_rev. reflexivity.
Qed.

(** X: with a header that names "state" but no "location" column, every
    location loaded is "<city>, <ST>" where <ST> is the first two
    characters of the record's state cell, upper-cased (a full state name
    is truncated: "new hampshire" gives "NE"). *)
Theorem load_locations_state_city (py_float : string -> option pyfloat) (inp : csv_input)
    (hd : list string) (rest : list (list string)) (locs : list (string * pyfloat))
    (Hh : has_header inp = true) (Hr : records inp = hd :: rest)
    (Hnoloc : ~ In "location" (norm (Some hd))) (Hstate : In "state" (norm (Some hd)))
    (H : load_locations py_float inp = Some locs) :
  Forall (fun l => exists cols, In cols rest
            /\ l.1 = dict_get_default (header_map (norm (Some hd)) cols) "city" ""
                     +:+ ", "
                     +:+ upper (take_prefix 2
                                  (dict_get_default (header_map (norm (Some hd)) cols)
                                     "state" ""))) locs.
Proof.
  unfold load_locations in H. rewrite Hh, Hr in H. cbv beta iota zeta in H.
  injection H as <-.
  apply Forall_forall. intros [l r] Hx.
  apply list_elem_of_omap in Hx as (cols & Hin & Hc). exists cols.
  split; [apply list_elem_of_In, Hin|]. cbn [fst].
  set (h := norm (Some hd)) in *.
  change (location_of_record py_float h cols = Some (l, r)) in Hc. clearbody h.
  unfold location_of_record, parse_record in Hc.
  destruct cols as [|c0 cs]; [discriminate|].
  assert (Hlen : negb (List.length h =? 0)%nat = true)
    by (destruct h; [destruct Hstate|reflexivity]).
  rewrite Hlen in Hc. cbv zeta in Hc.
  assert (Hl : has_key (header_map h (c0 :: cs)) "location" = false).
  { destruct (has_key _ "location") eqn:E; [|reflexivity].
    apply has_key_header_map in E. contradiction. }
  rewrite Hl in Hc. cbn [andb] in Hc.
  destruct (has_key _ "state" && has_key _ "city" && has_key _ "radius_miles")%bool;
    [|discriminate].
  destruct (py_float _); [|discriminate].
  destruct (String.eqb _ ""); [discriminate|]. injection Hc as <- _. reflexivity.
Qed.

Lemma load_locations_state_city_witness :
  let pf := fun s => if String.eqb s "10" then Some (PFinite 10) else None in
  let inp := {| has_header := true;
                records := [["State"; "City"; "Radius_Miles"];
                            ["new hampshire"; "Concord"; "10"]] |} in
  load_locations pf inp = Some [("Concord, NE", PFinite 10)]
  /\ Forall (fun l => exists cols, In cols [["new hampshire"; "Concord"; "10"]]
            /\ l.1 = dict_get_default (header_map (norm (Some ["State"; "City"; "Radius_Miles"])) cols)
                       "city" ""
                     +:+ ", "
                     +:+ upper (take_prefix 2
                                  (dict_get_default
                                     (header_map (norm (Some ["State"; "City"; "Radius_Miles"])) cols)
                                     "state" "")))
       [("Concord, NE", PFinite 10)].
Proof.
  intros pf inp.
  assert (H : load_locations pf inp = Some [("Concord, NE", PFinite 10)])
    by (vm_compute; reflexivity).
  split; [exact H|].
  refine (load_locations_state_city pf inp ["State"; "City"; "Radius_Miles"]
            [["new hampshire"; "Concord"; "10"]] _ eq_refl eq_refl _ _ H).
  - vm_compute. intuition discriminate.
  - vm_compute. left. reflexivity.
Defined.

(** ** City and state in output file names *)




(** ** Checkpoint commits *)

(** X: with [CURSOR_CHECKPOINT_EVERY = 0] the checkpoint test raises
    [ZeroDivisionError] whenever it is evaluated; with any other value N,
    among any |N| consecutive values of [processed] one triggers a
    checkpoint commit, whatever the clock says. *)
Theorem checkpoint_every_n (ckpt_every_n ckpt_every_sec processed : Z) :
  (ckpt_every_n = 0 ->
     forall since_last, checkpoint_due ckpt_every_n ckpt_every_sec processed since_last = None)
  /\ (ckpt_every_n <> 0 ->
      exists k, 0 <= k < Z.abs ckpt_every_n
        /\ forall since_last,
             checkpoint_due ckpt_every_n ckpt_every_sec (processed + k) since_last = Some true).
Proof.
  split.
  - intros -> since_last. reflexivity.
  - intros Hn. exists ((- processed) mod Z.abs ckpt_every_n).
    split; [apply Z.mod_pos_bound; lia|].
    intros since_last. unfold checkpoint_due.
    destruct (ckpt_every_n =? 0) eqn:E; [apply Z.eqb_eq in E; contradiction|].
    assert (Hd : (processed + (- processed) mod Z.abs ckpt_every_n) mod ckpt_every_n = 0).
    { apply Z.mod_divide; [exact Hn|].
      apply Z.divide_abs_l.
      rewrite Z.mod_eq by lia.
      exists (- (- processed / Z.abs ckpt_every_n)). ring. }
    rewrite Hd. reflexivity.
Qed.

Lemma checkpoint_every_n_witness :
  (0 = 0 -> forall since_last, checkpoint_due 0 600 7 since_last = None)
  /\ 10 <> 0
  /\ exists k, 0 <= k < Z.abs 10
       /\ forall since_last, checkpoint_due 10 600 (7 + k) since_last = Some true.
Proof.
  split; [exact (proj1 (checkpoint_every_n 0 600 7))|].
  split; [lia|].
  exact (proj2 (checkpoint_every_n 10 600 7) ltac:(lia)).
Defined.
